(** * Inventory manager: stock movements, stock alerts and notifications

    A shallow embedding of the stock-movement engine
    ([server/services/stockMovementService.ts] with its two repositories),
    of the alert evaluator ([server/services/stockAlertService.ts] with the
    broadcasts of [server/services/websocketService.ts]) and of the
    notification store ([server/repositories/notificationRepository.ts],
    [server/services/notificationService.ts]).

    The TypeScript code is asynchronous and talks to a MySQL database through
    drizzle.  Every [await] is sequential here, so a call is a function from
    the state of the outside world (the tables, the socket server, the
    console) to a result and a new state.  An exception leaves the state as
    it was when it was thrown: nothing in the code opens a database
    transaction.

    Numbers are JavaScript numbers holding integers (the router accepts
    [z.number().int()], the columns are [int]); they are integers of [Z]. *)

From Stdlib Require Import ZArith List String Ascii Bool Lia QArith DecimalString.
From Stdlib Require Import Sorted.
Import ListNotations.

Open Scope string_scope.
Open Scope Z_scope.

(* ------------------------------------------------------------------ *)
(** ** drizzle/schema.ts *)

Module Schema.

(** [mysqlEnum("movementType", [...])] and the type [MovementType]. *)
Inductive MovementType := purchase | sale | adjustment | return_ | damage.

Definition MovementType_eqb (a b : MovementType) : bool :=
  match a, b with
  | purchase, purchase | sale, sale | adjustment, adjustment
  | return_, return_ | damage, damage => true
  | _, _ => false
  end.

(** Row of the table [products]. *)
Record Product := mkProduct {
  p_id : Z;
  p_name : string;
  p_sku : string;
  p_description : option string;
  p_categoryId : Z;
  p_quantity : Z;
  p_unitPrice : string;
  p_minStockLevel : Z;
  p_createdAt : Z;
  p_updatedAt : Z
}.

(** [Partial<InsertProduct>]: every field may be absent. *)
Record PartialInsertProduct := mkPartialInsertProduct {
  u_name : option string;
  u_sku : option string;
  u_description : option (option string);
  u_categoryId : option Z;
  u_quantity : option Z;
  u_unitPrice : option string;
  u_minStockLevel : option Z
}.

(** Row of the table [stock_movements]. *)
Record StockMovement := mkStockMovement {
  m_id : Z;
  m_productId : Z;
  m_movementType : MovementType;
  m_quantity : Z;
  m_reason : option string;
  m_createdAt : Z
}.

(** [InsertStockMovement]: [id] and [createdAt] are filled by the table. *)
Record InsertStockMovement := mkInsertStockMovement {
  i_productId : Z;
  i_movementType : MovementType;
  i_quantity : Z;
  i_reason : option string
}.

(** [mysqlEnum("type", [...])] of the table [notifications]. *)
Inductive NotificationType :=
  stock_low | stock_critical | stock_out | supplier_alert | system.

Definition NotificationType_eqb (a b : NotificationType) : bool :=
  match a, b with
  | stock_low, stock_low | stock_critical, stock_critical
  | stock_out, stock_out | supplier_alert, supplier_alert
  | system, system => true
  | _, _ => false
  end.

(** [mysqlEnum("read", ["true", "false"])]: the two strings. *)
Inductive ReadFlag := read_true | read_false.

Definition ReadFlag_eqb (a b : ReadFlag) : bool :=
  match a, b with
  | read_true, read_true | read_false, read_false => true
  | _, _ => false
  end.

(** Row of the table [notifications]. *)
Record Notification := mkNotification {
  n_id : Z;
  n_userId : Z;
  n_type : NotificationType;
  n_title : string;
  n_message : string;
  n_productId : option Z;
  n_supplierId : option Z;
  n_read : ReadFlag;
  n_createdAt : Z
}.

(** [InsertNotification]: [read] is optional, the column defaults to
    ["false"]. *)
Record InsertNotification := mkInsertNotification {
  in_userId : Z;
  in_type : NotificationType;
  in_title : string;
  in_message : string;
  in_productId : option Z;
  in_supplierId : option Z;
  in_read : option ReadFlag
}.

End Schema.
Import Schema.

(* ------------------------------------------------------------------ *)
(** ** The outside world and the monad of asynchronous calls *)

(** A JavaScript [Error] with its message. *)
Inductive Error := mkError (message : string).

Definition message_of (e : Error) : string :=
  match e with mkError s => s end.

(** What the socket server is asked to emit. *)
Inductive Payload :=
| AlertPayload (type title message : string) (productId : Z)
    (timestamp : Z) (severity : option string)
| MovementPayload (productId : Z) (productName : string)
    (movementType : MovementType) (quantity : Z) (reason : option string)
    (timestamp : Z).

(** The state a call runs in.  [db_outages] and [emit_faults] schedule the
    failures of the two external services, which are not part of the
    sources: the n-th coming [getDb()] resolves to [null] when the n-th
    element of [db_outages] is [true], and the n-th coming [io.emit] throws
    when the n-th element of [emit_faults] is [true]; past the end of a list
    the service works.  [users] and [suppliers] are the identifiers of the
    rows of the two tables the notifications refer to; no call modelled
    here writes to them. *)
Record World := mkWorld {
  products : list Product;
  stock_movements : list StockMovement;
  stock_movements_auto : Z;
  notifications : list Notification;
  notifications_auto : Z;
  db_outages : list bool;
  io : bool;
  emitted : list (string * Payload);
  emit_faults : list bool;
  console : list string;
  clock : Z;
  users : list Z;
  suppliers : list Z
}.

Definition set_products (f : list Product -> list Product) (w : World) :=
  mkWorld (f (products w)) (stock_movements w) (stock_movements_auto w)
    (notifications w) (notifications_auto w) (db_outages w) (io w)
    (emitted w) (emit_faults w) (console w) (clock w) (users w) (suppliers w).

Definition set_stock_movements (ms : list StockMovement) (auto : Z)
  (w : World) :=
  mkWorld (products w) ms auto
    (notifications w) (notifications_auto w) (db_outages w) (io w)
    (emitted w) (emit_faults w) (console w) (clock w) (users w) (suppliers w).

Definition set_notifications (ns : list Notification) (auto : Z)
  (w : World) :=
  mkWorld (products w) (stock_movements w) (stock_movements_auto w)
    ns auto (db_outages w) (io w)
    (emitted w) (emit_faults w) (console w) (clock w) (users w) (suppliers w).

Definition set_db_outages (l : list bool) (w : World) :=
  mkWorld (products w) (stock_movements w) (stock_movements_auto w)
    (notifications w) (notifications_auto w) l (io w)
    (emitted w) (emit_faults w) (console w) (clock w) (users w) (suppliers w).

Definition set_emitted (l : list (string * Payload)) (w : World) :=
  mkWorld (products w) (stock_movements w) (stock_movements_auto w)
    (notifications w) (notifications_auto w) (db_outages w) (io w)
    l (emit_faults w) (console w) (clock w) (users w) (suppliers w).

Definition set_emit_faults (l : list bool) (w : World) :=
  mkWorld (products w) (stock_movements w) (stock_movements_auto w)
    (notifications w) (notifications_auto w) (db_outages w) (io w)
    (emitted w) l (console w) (clock w) (users w) (suppliers w).

Definition set_console (l : list string) (w : World) :=
  mkWorld (products w) (stock_movements w) (stock_movements_auto w)
    (notifications w) (notifications_auto w) (db_outages w) (io w)
    (emitted w) (emit_faults w) l (clock w) (users w) (suppliers w).


Definition set_suppliers (l : list Z) (w : World) :=
  mkWorld (products w) (stock_movements w) (stock_movements_auto w)
    (notifications w) (notifications_auto w) (db_outages w) (io w)
    (emitted w) (emit_faults w) (console w) (clock w) (users w) l.

(** Outcome of a call: a value, or a thrown [Error]. *)
Inductive Result (A : Type) :=
| Ok (a : A)
| Throw (e : Error).
Arguments Ok {A} a.
Arguments Throw {A} e.

Definition M (A : Type) : Type := World -> Result A * World.

Definition ret {A} (a : A) : M A := fun w => (Ok a, w).

Definition throw {A} (msg : string) : M A := fun w => (Throw (mkError msg), w).

Definition bind {A B} (m : M A) (k : A -> M B) : M B :=
  fun w =>
    match m w with
    | (Ok a, w1) => k a w1
    | (Throw e, w1) => (Throw e, w1)
    end.

(** [try { body } catch (error) { handler }]. *)
Definition try_catch {A} (body : M A) (handler : Error -> M A) : M A :=
  fun w =>
    match body w with
    | (Ok a, w1) => (Ok a, w1)
    | (Throw e, w1) => handler e w1
    end.

Declare Scope js_scope.
Delimit Scope js_scope with js.
Notation "x <- m ;; k" := (bind m (fun x => k))
  (at level 61, m at next level, right associativity) : js_scope.
Notation "m ;;; k" := (bind m (fun _ => k))
  (at level 61, right associativity) : js_scope.
Open Scope js_scope.

(** [`${n}`] for an integer [n]. *)
Definition showZ (z : Z) : string := NilZero.string_of_int (Z.to_int z).

(** The double-quote character of a template literal. *)
Definition dquote : string := String (ascii_of_nat 34) EmptyString.

(** [console.log] and [console.error] append a line. *)
Definition console_log (line : string) : M unit :=
  fun w => (Ok tt, set_console (console w ++ [line])%list w).

(** [new Date()]. *)
Definition now : M Z := fun w => (Ok (clock w), w).

(** [String.prototype.trim].  A string is the sequence of the bytes of
    the JavaScript string in UTF-8.  The white space and the line
    terminators of ECMAScript are TAB, LF, VT, FF, CR and SP, one byte
    each; U+00A0, two bytes; U+1680, U+2000 to U+200A, U+2028, U+2029,
    U+202F, U+205F, U+3000 and U+FEFF, three bytes each. *)
Definition byte (c : ascii) : Z := Z.of_nat (nat_of_ascii c).

Definition is_space (c : ascii) : bool :=
  let n := nat_of_ascii c in
  ((9 <=? n) && (n <=? 13))%nat || (n =? 32)%nat.

Definition is_space2 (a b : ascii) : bool :=
  (byte a =? 194) && (byte b =? 160).

Definition is_space3 (a b c : ascii) : bool :=
  ((byte a =? 225) && (byte b =? 154) && (byte c =? 128))
  || ((byte a =? 226) && (byte b =? 128)
      && (((128 <=? byte c) && (byte c <=? 138))
          || (byte c =? 168) || (byte c =? 169) || (byte c =? 175)))
  || ((byte a =? 226) && (byte b =? 129) && (byte c =? 159))
  || ((byte a =? 227) && (byte b =? 128) && (byte c =? 128))
  || ((byte a =? 239) && (byte b =? 187) && (byte c =? 191)).

Fixpoint trim_start (s : string) : string :=
  match s with
  | EmptyString => EmptyString
  | String a s1 =>
      if is_space a then trim_start s1 else
      match s1 with
      | EmptyString => s
      | String b s2 =>
          if is_space2 a b then trim_start s2 else
          match s2 with
          | EmptyString => s
          | String c s3 => if is_space3 a b c then trim_start s3 else s
          end
      end
  end.

(** The same from the end, on the bytes in reverse order. *)
Fixpoint trim_reversed (s : string) : string :=
  match s with
  | EmptyString => EmptyString
  | String c s1 =>
      if is_space c then trim_reversed s1 else
      match s1 with
      | EmptyString => s
      | String b s2 =>
          if is_space2 b c then trim_reversed s2 else
          match s2 with
          | EmptyString => s
          | String a s3 => if is_space3 a b c then trim_reversed s3 else s
          end
      end
  end.

Definition reverse (s : string) : string :=
  string_of_list_ascii (rev (list_ascii_of_string s)).

Definition trim_end (s : string) : string :=
  reverse (trim_reversed (reverse s)).

Definition trim (s : string) : string := trim_end (trim_start s).

(** The no-break space U+00A0, as its two bytes. *)
Definition nbsp : string :=
  String (ascii_of_nat 194) (String (ascii_of_nat 160) EmptyString).

(* ------------------------------------------------------------------ *)
(** ** server/db.ts (not in the sources): [getDb] *)

(** Modelled from the spec: [getDb] of [server/db.ts], which is not among
    the sources.  §7 names the connection failure during persist; in the
    sources [getDb()] resolves to the database handle or to [null], and the
    callers only test it.  [true] stands for a handle. *)
Definition getDb : M bool :=
  fun w =>
    match db_outages w with
    | [] => (Ok true, w)
    | down :: rest => (Ok (negb down), set_db_outages rest w)
    end.

(* ------------------------------------------------------------------ *)
(** ** server/repositories/productRepository.ts *)

Module productRepository.

(** [select().from(products).where(eq(products.id, id)).limit(1)],
    then [result[0]]. *)
Definition select_by_id (id : Z) (rows : list Product) : option Product :=
  find (fun p => p_id p =? id) rows.

Definition select_by_sku (sku : string) (rows : list Product)
  : option Product :=
  find (fun p => String.eqb (p_sku p) sku) rows.

Definition findById (id : Z) : M (option Product) :=
  db <- getDb ;;
  if negb db then throw "Database connection failed" else
  fun w => (Ok (select_by_id id (products w)), w).

Definition findBySku (sku : string) : M (option Product) :=
  db <- getDb ;;
  if negb db then throw "Database connection failed" else
  fun w => (Ok (select_by_sku sku (products w)), w).

Definition or_else {A} (o : option A) (d : A) : A :=
  match o with Some a => a | None => d end.

Definition option_eqb {A} (eqb : A -> A -> bool) (a b : option A) : bool :=
  match a, b with
  | Some x, Some y => eqb x y
  | None, None => true
  | _, _ => false
  end.

Definition Product_eqb (a b : Product) : bool :=
  (p_quantity a =? p_quantity b)
  && (p_id a =? p_id b)
  && String.eqb (p_name a) (p_name b)
  && String.eqb (p_sku a) (p_sku b)
  && option_eqb String.eqb (p_description a) (p_description b)
  && (p_categoryId a =? p_categoryId b)
  && String.eqb (p_unitPrice a) (p_unitPrice b)
  && (p_minStockLevel a =? p_minStockLevel b)
  && (p_createdAt a =? p_createdAt b)
  && (p_updatedAt a =? p_updatedAt b).

(** [set(data)] on one row.  [updatedAt] is [onUpdateNow()], the clause
    ON UPDATE CURRENT_TIMESTAMP of MySQL: the date moves when the update
    changes a value of the row. *)
Definition apply_set (data : PartialInsertProduct) (t : Z) (p : Product)
  : Product :=
  let p' :=
    mkProduct (p_id p)
      (or_else (u_name data) (p_name p))
      (or_else (u_sku data) (p_sku p))
      (or_else (u_description data) (p_description p))
      (or_else (u_categoryId data) (p_categoryId p))
      (or_else (u_quantity data) (p_quantity p))
      (or_else (u_unitPrice data) (p_unitPrice p))
      (or_else (u_minStockLevel data) (p_minStockLevel p))
      (p_createdAt p) (p_updatedAt p) in
  if Product_eqb p' p then p
  else
    mkProduct (p_id p') (p_name p') (p_sku p') (p_description p')
      (p_categoryId p') (p_quantity p') (p_unitPrice p') (p_minStockLevel p')
      (p_createdAt p') t.

(** [db.update(products).set(data).where(eq(products.id, id))]. *)
Definition db_update (id : Z) (data : PartialInsertProduct) : M unit :=
  fun w =>
    (Ok tt,
     set_products
       (map (fun p => if p_id p =? id then apply_set data (clock w) p else p))
       w).

(** [data.sku && data.sku !== existing.sku]: the empty string is falsy. *)
Definition sku_changes (data : PartialInsertProduct) (existing : Product)
  : option string :=
  match u_sku data with
  | Some s =>
      if (negb (String.eqb s EmptyString)) && negb (String.eqb s (p_sku existing))
      then Some s else None
  | None => None
  end.

Definition update (id : Z) (data : PartialInsertProduct) : M Product :=
  db <- getDb ;;
  if negb db then throw "Database connection failed" else
  existing <- findById id ;;
  match existing with
  | None => throw ("Product with ID " ++ showZ id ++ " not found")
  | Some existing =>
      (match sku_changes data existing with
       | Some s =>
           conflict <- findBySku s ;;
           match conflict with
           | Some _ =>
               throw ("Product with SKU " ++ dquote ++ s ++ dquote
                      ++ " already exists")
           | None => ret tt
           end
       | None => ret tt
       end) ;;;
      db_update id data ;;;
      updated <- findById id ;;
      match updated with
      | None => throw "Failed to update product"
      | Some updated => ret updated
      end
  end.


(** [findAll()] called without filter and without pagination:
    [conditions] stays empty and the query is
    [db.select().from(products)]. *)
Definition findAll_unfiltered : M (list Product) :=
  db <- getDb ;;
  if negb db then throw "Database connection failed" else
  fun w => (Ok (products w), w).

(** [findAll({ lowStock: true })], without pagination: the only condition
    is [lte(products.quantity, products.minStockLevel)]. *)
Definition findAll_lowStock : M (list Product) :=
  db <- getDb ;;
  if negb db then throw "Database connection failed" else
  fun w =>
    (Ok (filter (fun p => p_quantity p <=? p_minStockLevel p) (products w)),
     w).

End productRepository.

(* ------------------------------------------------------------------ *)
(** ** server/repositories/stockMovementRepository.ts *)

Module stockMovementRepository.

(** [select().from(stockMovements).where(eq(stockMovements.id, id))
    .limit(1)], then [result[0]]. *)
Definition select_by_id (id : Z) (rows : list StockMovement)
  : option StockMovement :=
  find (fun m => m_id m =? id) rows.

Definition findByProductId (productId : Z) : M (list StockMovement) :=
  db <- getDb ;;
  if negb db then throw "Database connection failed" else
  fun w =>
    (Ok (filter (fun m => m_productId m =? productId) (stock_movements w)),
     w).

Definition findAll : M (list StockMovement) :=
  db <- getDb ;;
  if negb db then throw "Database connection failed" else
  fun w => (Ok (stock_movements w), w).

Definition findById (id : Z) : M (option StockMovement) :=
  db <- getDb ;;
  if negb db then throw "Database connection failed" else
  fun w => (Ok (select_by_id id (stock_movements w)), w).

(** The row the table stores for [values(data)]: [id] is the
    auto-increment counter, [createdAt] is [defaultNow()]. *)
Definition new_row (data : InsertStockMovement) (w : World)
  : StockMovement :=
  mkStockMovement (stock_movements_auto w) (i_productId data)
    (i_movementType data) (i_quantity data) (i_reason data) (clock w).

(** [db.insert(stockMovements).values(data)].  The table has the foreign
    key [productFk] on [products.id]: MySQL refuses a row whose product
    does not exist. *)
Definition db_insert (data : InsertStockMovement) : M unit :=
  fun w =>
    if existsb (fun p => p_id p =? i_productId data) (products w)
    then (Ok tt,
          set_stock_movements
            (stock_movements w ++ [new_row data w])%list
            (stock_movements_auto w + 1) w)
    else (Throw (mkError "a foreign key constraint fails (stock_movements)"),
          w).

Definition create (data : InsertStockMovement) : M StockMovement :=
  db <- getDb ;;
  if negb db then throw "Database connection failed" else
  db_insert data ;;;
  created <- findById (i_productId data) ;;
  match created with
  | None => throw "Failed to create stock movement"
  | Some created => ret created
  end.


(** [findByDateRange]: dates are compared by their time value. *)
Definition findByDateRange (startDate endDate : Z)
  : M (list StockMovement) :=
  db <- getDb ;;
  if negb db then throw "Database connection failed" else
  allMovements <- findAll ;;
  ret (filter (fun m => (startDate <=? m_createdAt m)
                        && (m_createdAt m <=? endDate))
         allMovements).

(** The object [summary] of [getMovementsSummary]: one counter for each
    of the five keys. *)
Record Summary := mkSummary {
  s_purchase : Z;
  s_sale : Z;
  s_adjustment : Z;
  s_return : Z;
  s_damage : Z
}.

(** [summary[m.movementType]++]; every movement type is a key of
    [summary]. *)
Definition increment (summary : Summary) (t : MovementType) : Summary :=
  match t with
  | purchase =>
      mkSummary (s_purchase summary + 1) (s_sale summary)
        (s_adjustment summary) (s_return summary) (s_damage summary)
  | sale =>
      mkSummary (s_purchase summary) (s_sale summary + 1)
        (s_adjustment summary) (s_return summary) (s_damage summary)
  | adjustment =>
      mkSummary (s_purchase summary) (s_sale summary)
        (s_adjustment summary + 1) (s_return summary) (s_damage summary)
  | return_ =>
      mkSummary (s_purchase summary) (s_sale summary)
        (s_adjustment summary) (s_return summary + 1) (s_damage summary)
  | damage =>
      mkSummary (s_purchase summary) (s_sale summary)
        (s_adjustment summary) (s_return summary) (s_damage summary + 1)
  end.

Definition getMovementsSummary (productId : Z) : M Summary :=
  movements <- findByProductId productId ;;
  ret (fold_left (fun summary m => increment summary (m_movementType m))
         movements (mkSummary 0 0 0 0 0)).

End stockMovementRepository.

(* ------------------------------------------------------------------ *)
(** ** server/services/stockMovementService.ts *)

Module stockMovementService.

Record StockMovementCreateInput := mkInput {
  d_productId : Z;
  d_movementType : MovementType;
  d_quantity : Z;
  d_reason : option string
}.

Definition validTypes : list MovementType :=
  [purchase; sale; adjustment; return_; damage].

Definition includes (l : list MovementType) (t : MovementType) : bool :=
  existsb (MovementType_eqb t) l.

Definition movementType_name (t : MovementType) : string :=
  match t with
  | purchase => "purchase"
  | sale => "sale"
  | adjustment => "adjustment"
  | return_ => "return"
  | damage => "damage"
  end.

Definition quantity_only (q : Z) : PartialInsertProduct :=
  mkPartialInsertProduct None None None None (Some q) None None.

Definition recordMovement (data : StockMovementCreateInput)
  : M StockMovement :=
  (* Validate product exists *)
  product <- productRepository.findById (d_productId data) ;;
  match product with
  | None =>
      throw ("Product with ID " ++ showZ (d_productId data) ++ " not found")
  | Some product =>
      (* Validate quantity *)
      if d_quantity data <=? 0
      then throw "Movement quantity must be greater than 0" else
      (* Validate movement type *)
      if negb (includes validTypes (d_movementType data))
      then throw ("Invalid movement type: "
                  ++ movementType_name (d_movementType data)) else
      (* Calculate new quantity based on movement type *)
      let newQuantity :=
        match d_movementType data with
        | purchase | return_ => p_quantity product + d_quantity data
        | sale | damage => p_quantity product - d_quantity data
        | adjustment => d_quantity data
        end in
      (* Validate new quantity is not negative *)
      if newQuantity <? 0
      then throw ("Insufficient stock. Current: "
                  ++ showZ (p_quantity product)
                  ++ ", Requested: " ++ showZ (d_quantity data)) else
      (* Create stock movement record *)
      let insertData :=
        mkInsertStockMovement (d_productId data) (d_movementType data)
          (if MovementType_eqb (d_movementType data) adjustment
           then newQuantity else d_quantity data)
          (option_map trim (d_reason data)) in
      movement <- stockMovementRepository.create insertData ;;
      (* Update product quantity *)
      productRepository.update (d_productId data)
        (quantity_only newQuantity) ;;;
      ret movement
  end.

(** [getMovementTotals]: inbound and outbound totals of a product. *)
Definition getMovementTotals (productId : Z) : M (Z * Z) :=
  movements <- stockMovementRepository.findByProductId productId ;;
  ret (fold_left
         (fun (acc : Z * Z) m =>
            match m_movementType m with
            | purchase | return_ => (fst acc + m_quantity m, snd acc)
            | sale | damage => (fst acc, snd acc + m_quantity m)
            | adjustment => acc
            end)
         movements (0, 0)).


Definition getAllMovements : M (list StockMovement) :=
  stockMovementRepository.findAll.

Definition getMovementsByProduct (productId : Z) : M (list StockMovement) :=
  stockMovementRepository.findByProductId productId.

Definition getMovementsByDateRange (startDate endDate : Z)
  : M (list StockMovement) :=
  stockMovementRepository.findByDateRange startDate endDate.

Definition getMovementsSummary (productId : Z)
  : M stockMovementRepository.Summary :=
  stockMovementRepository.getMovementsSummary productId.

End stockMovementService.

(* ------------------------------------------------------------------ *)
(** ** server/services/websocketService.ts *)

Module websocketService.

(** [this.io.emit(event, payload)]. *)
Definition io_emit (event : string) (payload : Payload) : M unit :=
  fun w =>
    match emit_faults w with
    | true :: rest =>
        (Throw (mkError "socket emit failed"), set_emit_faults rest w)
    | false :: rest =>
        (Ok tt,
         set_emitted (emitted w ++ [(event, payload)])%list
           (set_emit_faults rest w))
    | [] => (Ok tt, set_emitted (emitted w ++ [(event, payload)])%list w)
    end.

(** [if (!this.io) return;] *)
Definition io_ready : M bool := fun w => (Ok (io w), w).

Definition broadcastLowStockAlert (productId : Z) (productName : string)
  (currentQuantity minLevel : Z) : M unit :=
  ready <- io_ready ;;
  if negb ready then ret tt else
  timestamp <- now ;;
  let notification :=
    AlertPayload "stock_low"
      ("Low Stock: " ++ productName)
      ("Product " ++ dquote ++ productName ++ dquote ++ " has "
       ++ showZ currentQuantity ++ " units, below minimum level of "
       ++ showZ minLevel)
      productId timestamp None in
  io_emit "notification:stock_low" notification ;;;
  console_log ("[WebSocket] Broadcasted low stock alert for product "
               ++ showZ productId).

Definition broadcastCriticalStockAlert (productId : Z)
  (productName : string) : M unit :=
  ready <- io_ready ;;
  if negb ready then ret tt else
  timestamp <- now ;;
  let notification :=
    AlertPayload "stock_critical"
      ("CRITICAL: " ++ productName ++ " Out of Stock!")
      ("Product " ++ dquote ++ productName ++ dquote
       ++ " is out of stock or critically low!")
      productId timestamp (Some "critical") in
  io_emit "notification:stock_critical" notification ;;;
  console_log ("[WebSocket] Broadcasted critical stock alert for product "
               ++ showZ productId).

Definition broadcastStockMovement (productId : Z) (productName : string)
  (movementType : MovementType) (quantity : Z) (reason : option string)
  : M unit :=
  ready <- io_ready ;;
  if negb ready then ret tt else
  timestamp <- now ;;
  let movement :=
    MovementPayload productId productName movementType quantity reason
      timestamp in
  io_emit "stock:movement" movement ;;;
  console_log ("[WebSocket] Broadcasted stock movement for product "
               ++ showZ productId).


(** [connectedUsers: Map<string, ConnectedUser>], in insertion order. *)
Record ConnectedUser := mkConnectedUser {
  cu_userId : Z;
  cu_socketId : string;
  cu_role : string
}.

Definition ConnectedUsers := list (string * ConnectedUser).

Definition map_get (key : string) (m : ConnectedUsers)
  : option ConnectedUser :=
  option_map snd (find (fun kv => String.eqb (fst kv) key) m).

(** [Map.prototype.set]: a key that is there keeps its place. *)
Fixpoint map_set (key : string) (v : ConnectedUser) (m : ConnectedUsers)
  : ConnectedUsers :=
  match m with
  | [] => [(key, v)]
  | kv :: m' =>
      if String.eqb (fst kv) key then (key, v) :: m'
      else kv :: map_set key v m'
  end.

Definition map_delete (key : string) (m : ConnectedUsers) : ConnectedUsers :=
  filter (fun kv => negb (String.eqb (fst kv) key)) m.

(** The handler of [user:join] on the socket [socketId], on the registry;
    the room of the user and the console are left out. *)
Definition on_user_join (socketId : string) (userId : Z) (role : string)
  (m : ConnectedUsers) : ConnectedUsers :=
  map_set socketId (mkConnectedUser userId socketId role) m.

(** The handler of [disconnect] on the socket [socketId]. *)
Definition on_disconnect (socketId : string) (m : ConnectedUsers)
  : ConnectedUsers :=
  match map_get socketId m with
  | Some _ => map_delete socketId m
  | None => m
  end.

Definition getConnectedUserCount (m : ConnectedUsers) : Z :=
  Z.of_nat (List.length m).

Definition getConnectedUsers (m : ConnectedUsers) : list ConnectedUser :=
  map snd m.

Definition isUserConnected (userId : Z) (m : ConnectedUsers) : bool :=
  existsb (fun user => cu_userId user =? userId) (map snd m).

End websocketService.

(* ------------------------------------------------------------------ *)
(** ** server/services/stockAlertService.ts *)

Module stockAlertService.

(** [a < b] on numbers that need not be integers.  The only such number
    is [minLevel * 0.2]; it is taken exactly, over the rationals.  On
    integers in the range of an [int] column the comparison of doubles
    gives the same answer: the product is rounded to an integer exactly
    when [minLevel] is a multiple of 5, and rounding is monotone. *)
Definition number_lt (a b : Q) : bool := negb (Qle_bool b a).

Definition checkAndAlertStockLevel (productId : Z) : M unit :=
  try_catch
    (product <- productRepository.findById productId ;;
     match product with
     | None => ret tt
     | Some product =>
         let quantity := p_quantity product in
         let minLevel := p_minStockLevel product in
         (* Critical alert: out of stock *)
         if quantity =? 0 then
           websocketService.broadcastCriticalStockAlert productId
             (p_name product)
         (* Critical alert: below 20% of minimum level *)
         else if number_lt (inject_Z quantity) (inject_Z minLevel * 0.2)
         then
           websocketService.broadcastCriticalStockAlert productId
             (p_name product)
         (* Warning alert: below minimum level *)
         else if quantity <? minLevel then
           websocketService.broadcastLowStockAlert productId
             (p_name product) quantity minLevel
         else ret tt
     end)
    (fun error =>
       console_log ("[StockAlert] Error checking stock for product "
                    ++ showZ productId ++ ": " ++ message_of error)).

Definition recordMovementAndAlert (productId : Z)
  (movementType : MovementType) (quantity : Z) (reason : option string)
  : M unit :=
  try_catch
    ((* Record the movement *)
     stockMovementRepository.create
       (mkInsertStockMovement productId movementType quantity reason) ;;;
     (* Get product details *)
     product <- productRepository.findById productId ;;
     match product with
     | Some product =>
         (* Broadcast the movement *)
         websocketService.broadcastStockMovement productId (p_name product)
           movementType quantity reason ;;;
         (* Check stock levels after movement *)
         checkAndAlertStockLevel productId
     | None => ret tt
     end)
    (fun error =>
       console_log ("[StockAlert] Error recording movement for product "
                    ++ showZ productId ++ ": " ++ message_of error)).


(** [for (const product of products) await
    this.checkAndAlertStockLevel(product.id)]. *)
Fixpoint check_each (products : list Product) : M unit :=
  match products with
  | [] => ret tt
  | product :: rest =>
      checkAndAlertStockLevel (p_id product) ;;; check_each rest
  end.

Definition checkAllProductsStockLevels : M unit :=
  try_catch
    (products <- productRepository.findAll_unfiltered ;;
     check_each products ;;;
     console_log ("[StockAlert] Checked "
                  ++ showZ (Z.of_nat (List.length products))
                  ++ " products for stock levels"))
    (fun error =>
       console_log ("[StockAlert] Error checking all products: "
                    ++ message_of error)).

End stockAlertService.

(* ------------------------------------------------------------------ *)
(** ** server/repositories/notificationRepository.ts *)

Module notificationRepository.

(** [orderBy(desc(notifications.createdAt))]: a stable insertion sort,
    rows of equal date keep the order of the table. *)
Fixpoint insert_desc (n : Notification) (l : list Notification)
  : list Notification :=
  match l with
  | [] => [n]
  | x :: l' =>
      if n_createdAt x <? n_createdAt n then n :: l
      else x :: insert_desc n l'
  end.

Definition order_desc (l : list Notification) : list Notification :=
  fold_right insert_desc [] l.

(** [limit(count)]. *)
Definition limit (count : Z) (l : list Notification) : list Notification :=
  firstn (Z.to_nat count) l.

Definition getUnreadByUserId (userId : Z) : M (list Notification) :=
  db <- getDb ;;
  if negb db then throw "Database not available" else
  fun w =>
    (Ok (limit 50
           (order_desc
              (filter (fun n => (n_userId n =? userId)
                                && ReadFlag_eqb (n_read n) read_false)
                 (notifications w)))),
     w).

Definition getRecentByUserId (userId : Z) (count : Z)
  : M (list Notification) :=
  db <- getDb ;;
  if negb db then throw "Database not available" else
  fun w =>
    (Ok (limit count
           (order_desc
              (filter (fun n => n_userId n =? userId) (notifications w)))),
     w).

(** The row the table stores for [values(data)]. *)
Definition new_row (data : InsertNotification) (w : World) : Notification :=
  mkNotification (notifications_auto w) (in_userId data) (in_type data)
    (in_title data) (in_message data) (in_productId data)
    (in_supplierId data)
    (match in_read data with Some r => r | None => read_false end)
    (clock w).

(** A reference that may be [null] is to a row that is there. *)
Definition refers (reference : option Z) (ids : list Z) : bool :=
  match reference with
  | Some id => existsb (Z.eqb id) ids
  | None => true
  end.

(** The three foreign keys of the table: [userFk] on [users.id],
    [productFk] on [products.id], [supplierFk] on [suppliers.id]. *)
Definition foreign_keys (data : InsertNotification) (w : World) : bool :=
  existsb (Z.eqb (in_userId data)) (users w)
  && refers (in_productId data) (map p_id (products w))
  && refers (in_supplierId data) (suppliers w).

(** [db.insert(notifications).values(data)]: MySQL refuses a row that
    breaks a foreign key. *)
Definition db_insert (data : InsertNotification) : M unit :=
  fun w =>
    if foreign_keys data w
    then (Ok tt,
          set_notifications (notifications w ++ [new_row data w])%list
            (notifications_auto w + 1) w)
    else (Throw (mkError "a foreign key constraint fails (notifications)"),
          w).

Definition create (data : InsertNotification) : M Notification :=
  db <- getDb ;;
  if negb db then throw "Database not available" else
  db_insert data ;;;
  result <- (fun w =>
    (Ok (limit 1
           (order_desc
              (filter (fun n => (n_userId n =? in_userId data)
                                && NotificationType_eqb (n_type n)
                                     (in_type data)
                                && String.eqb (n_title n) (in_title data))
                 (notifications w)))),
     w)) ;;
  match result with
  | [] => throw "Failed to create notification"
  | first :: _ => ret first
  end.

(** [set({ read: "true" })] on one row. *)
Definition set_read_true (n : Notification) : Notification :=
  mkNotification (n_id n) (n_userId n) (n_type n) (n_title n)
    (n_message n) (n_productId n) (n_supplierId n) read_true
    (n_createdAt n).

Definition markAsRead (notificationId : Z) : M unit :=
  db <- getDb ;;
  if negb db then throw "Database not available" else
  fun w =>
    (Ok tt,
     set_notifications
       (map (fun n => if n_id n =? notificationId then set_read_true n
                      else n)
          (notifications w))
       (notifications_auto w) w).

Definition markAllAsRead (userId : Z) : M unit :=
  db <- getDb ;;
  if negb db then throw "Database not available" else
  fun w =>
    (Ok tt,
     set_notifications
       (map (fun n => if (n_userId n =? userId)
                         && ReadFlag_eqb (n_read n) read_false
                      then set_read_true n else n)
          (notifications w))
       (notifications_auto w) w).

Definition delete (notificationId : Z) : M bool :=
  db <- getDb ;;
  if negb db then throw "Database not available" else
  notification <- (fun w =>
    (Ok (firstn 1 (filter (fun n => n_id n =? notificationId)
                     (notifications w))), w)) ;;
  match notification with
  | [] => throw ("Notification with ID " ++ showZ notificationId
                 ++ " not found")
  | _ :: _ =>
      (fun w =>
         (Ok tt,
          set_notifications
            (filter (fun n => negb (n_id n =? notificationId))
               (notifications w))
            (notifications_auto w) w)) ;;;
      ret true
  end.

Definition getUnreadCount (userId : Z) : M Z :=
  db <- getDb ;;
  if negb db then throw "Database not available" else
  fun w =>
    (Ok (Z.of_nat
           (List.length
              (filter (fun n => (n_userId n =? userId)
                                && ReadFlag_eqb (n_read n) read_false)
                 (notifications w)))),
     w).

End notificationRepository.

(* ------------------------------------------------------------------ *)
(** ** server/services/notificationService.ts *)

Module notificationService.

Definition createLowStockNotification (userId productId : Z)
  (productName : string) (currentQuantity minLevel : Z) : M Notification :=
  notificationRepository.create
    (mkInsertNotification userId stock_low
       ("Low Stock: " ++ productName)
       ("Product " ++ dquote ++ productName ++ dquote ++ " has "
        ++ showZ currentQuantity ++ " units, below minimum level of "
        ++ showZ minLevel)
       (Some productId) None (Some read_false)).

Definition createCriticalStockNotification (userId productId : Z)
  (productName : string) : M Notification :=
  notificationRepository.create
    (mkInsertNotification userId stock_critical
       ("Critical Stock: " ++ productName)
       ("Product " ++ dquote ++ productName ++ dquote
        ++ " is out of stock or critically low!")
       (Some productId) None (Some read_false)).

Definition createSupplierAlertNotification (userId supplierId : Z)
  (supplierName message : string) : M Notification :=
  notificationRepository.create
    (mkInsertNotification userId supplier_alert
       ("Supplier Alert: " ++ supplierName)
       message None (Some supplierId) (Some read_false)).

Definition createSystemNotification (userId : Z) (title message : string)
  : M Notification :=
  notificationRepository.create
    (mkInsertNotification userId system title message None None
       (Some read_false)).

Definition getUnreadNotifications (userId : Z) : M (list Notification) :=
  notificationRepository.getUnreadByUserId userId.

Definition getRecentNotifications (userId count : Z)
  : M (list Notification) :=
  notificationRepository.getRecentByUserId userId count.

Definition markAsRead (notificationId : Z) : M unit :=
  notificationRepository.markAsRead notificationId.

Definition markAllAsRead (userId : Z) : M unit :=
  notificationRepository.markAllAsRead userId.

Definition deleteNotification (notificationId : Z) : M bool :=
  notificationRepository.delete notificationId.

Definition getUnreadCount (userId : Z) : M Z :=
  notificationRepository.getUnreadCount userId.

Definition notifyAdminsAboutCriticalEvent (title message : string)
  (productId : option Z) : M unit :=
  console_log ("[ADMIN ALERT] " ++ title ++ ": " ++ message).

(** The calls the service offers, and what each does to the world. *)
Inductive Call :=
| CreateLowStock (userId productId : Z) (productName : string)
    (currentQuantity minLevel : Z)
| CreateCriticalStock (userId productId : Z) (productName : string)
| CreateSupplierAlert (userId supplierId : Z)
    (supplierName message : string)
| CreateSystem (userId : Z) (title message : string)
| GetUnread (userId : Z)
| GetRecent (userId count : Z)
| MarkAsRead (notificationId : Z)
| MarkAllAsRead (userId : Z)
| Delete (notificationId : Z)
| GetUnreadCount (userId : Z)
| NotifyAdmins (title message : string) (productId : option Z).

Definition ignore {A} (m : M A) : M unit := m ;;; ret tt.

Definition run (c : Call) : M unit :=
  match c with
  | CreateLowStock u p name q m =>
      ignore (createLowStockNotification u p name q m)
  | CreateCriticalStock u p name =>
      ignore (createCriticalStockNotification u p name)
  | CreateSupplierAlert u s name msg =>
      ignore (createSupplierAlertNotification u s name msg)
  | CreateSystem u title msg => ignore (createSystemNotification u title msg)
  | GetUnread u => ignore (getUnreadNotifications u)
  | GetRecent u count => ignore (getRecentNotifications u count)
  | MarkAsRead id => markAsRead id
  | MarkAllAsRead u => markAllAsRead u
  | Delete id => ignore (deleteNotification id)
  | GetUnreadCount u => ignore (getUnreadCount u)
  | NotifyAdmins title msg p => notifyAdminsAboutCriticalEvent title msg p
  end.

End notificationService.

(* ------------------------------------------------------------------ *)
(** ** server/services/productService.ts: the two lookups *)

Module productService.

Definition getProductById (id : Z) : M Product :=
  product <- productRepository.findById id ;;
  match product with
  | None => throw ("Product with ID " ++ showZ id ++ " not found")
  | Some product => ret product
  end.

Definition getLowStockProducts : M (list Product) :=
  productRepository.findAll_lowStock.

End productService.

(* ------------------------------------------------------------------ *)
(** ** The specification's own words *)

Module Spec.

(** §4.1, step 2: the direction table. *)
Definition resultingQuantity (Q : Z) (t : MovementType) (quantity : Z) : Z :=
  match t with
  | purchase | return_ => Q + quantity
  | sale | damage => Q - quantity
  | adjustment => quantity
  end.

(** §4.2: the tiers, evaluated in strict order, first match wins.
    [Q < minLevel * 0.2] is taken exactly: [5 * Q < minLevel]. *)
Inductive AlertTier := CriticalOutOfStock | CriticalLow | Warning.

Definition evaluate (Q minLevel : Z) : option AlertTier :=
  if Q =? 0 then Some CriticalOutOfStock
  else if 5 * Q <? minLevel then Some CriticalLow
  else if Q <? minLevel then Some Warning
  else None.

End Spec.

(* ------------------------------------------------------------------ *)
(** ** Observations and sample worlds *)

(** The product row a lookup by [id] sees. *)
Definition product_of (id : Z) (w : World) : option Product :=
  productRepository.select_by_id id (products w).

(** What the evaluator puts on the socket for a tier found on product
    [p] at time [t]. *)
Definition critical_event (p : Product) (t : Z) : string * Payload :=
  ("notification:stock_critical",
   AlertPayload "stock_critical"
     ("CRITICAL: " ++ p_name p ++ " Out of Stock!")
     ("Product " ++ dquote ++ p_name p ++ dquote
      ++ " is out of stock or critically low!")
     (p_id p) t (Some "critical")).

Definition low_event (p : Product) (t : Z) : string * Payload :=
  ("notification:stock_low",
   AlertPayload "stock_low"
     ("Low Stock: " ++ p_name p)
     ("Product " ++ dquote ++ p_name p ++ dquote ++ " has "
      ++ showZ (p_quantity p) ++ " units, below minimum level of "
      ++ showZ (p_minStockLevel p))
     (p_id p) t None).

Definition events_of_tier (tier : option Spec.AlertTier) (p : Product)
  (t : Z) : list (string * Payload) :=
  match tier with
  | Some Spec.CriticalOutOfStock => [critical_event p t]
  | Some Spec.CriticalLow => [critical_event p t]
  | Some Spec.Warning => [low_event p t]
  | None => []
  end.

(** The [message] of an emitted alert. *)
Definition alert_message (ev : string * Payload) : string :=
  match snd ev with
  | AlertPayload _ _ message _ _ _ => message
  | MovementPayload _ _ _ _ _ _ => EmptyString
  end.

(** A product "Widget" with identifier [id], [q] units on hand and
    threshold [minLevel]. *)
Definition widget (id q minLevel : Z) : Product :=
  mkProduct id "Widget" "W-1" None 1 q "9.99" minLevel 0 0.

(** A world with the given tables, a reachable database, an initialised
    socket server, and the clock at 100; no user and no supplier. *)
Definition world_of (ps : list Product) (ms : list StockMovement) (auto : Z)
  : World :=
  mkWorld ps ms auto [] 1 [] true [] [] [] 100 [] [].

(** The same world where the coming [getDb()] calls answer as scheduled. *)
Definition with_outages (l : list bool) (w : World) : World :=
  set_db_outages l w.

(** The read flag of a stored notification only moves from ["false"] to
    ["true"].  [flag_kept_or_set n n']: the row [n'] is the row [n], as it
    was, or with the flag ["true"] and every other column as it was. *)
Definition flag_kept_or_set (n n' : Notification) : Prop :=
  n' = n \/
  n' = mkNotification (n_id n) (n_userId n) (n_type n) (n_title n)
         (n_message n) (n_productId n) (n_supplierId n) read_true
         (n_createdAt n).

(** [read_mono before after] relates the table before a call to the table
    after it.  Either every row is still there, in its place, as it was
    or with its flag set to ["true"], and the rows that follow are new
    and unread; or some rows are deleted and the others are as they
    were. *)
Inductive read_mono (before after : list Notification) : Prop :=
| rm_grows (kept created : list Notification) :
    after = (kept ++ created)%list ->
    Forall2 flag_kept_or_set before kept ->
    Forall (fun n => n_read n = read_false) created ->
    read_mono before after
| rm_shrinks (keep : Notification -> bool) :
    after = filter keep before ->
    read_mono before after.

(** [wp m Q w]: the outcome of running [m] in [w] satisfies [Q]. *)
Definition wp {A} (m : M A) (Q : Result A -> World -> Prop) (w : World)
  : Prop :=
  Q (fst (m w)) (snd (m w)).

(** A reachable database: the coming [getDb()] gives a handle. *)
Definition db_up (w : World) : Prop := hd false (db_outages w) = false.

(** [db_only w w']: [w'] is [w] after some calls of [getDb()]; the tables,
    the socket server, the console and the clock are those of [w]. *)
Definition db_only (w w' : World) : Prop :=
  exists l, w' = set_db_outages l w.

(** The table [products] after [db_update id data]. *)
Definition update_rows (id : Z) (data : PartialInsertProduct) (w : World)
  : World :=
  set_products
    (map (fun p => if p_id p =? id
                   then productRepository.apply_set data (clock w) p else p))
    w.

(** The table [stock_movements] after [db_insert data]. *)
Definition insert_row (data : InsertStockMovement) (w : World) : World :=
  set_stock_movements
    (stock_movements w ++ [stockMovementRepository.new_row data w])%list
    (stock_movements_auto w + 1) w.

(** The ledger entry [recordMovement] builds for [data] on a product row
    [p]: the local [insertData] of the source. *)
Definition ledger_entry (data : stockMovementService.StockMovementCreateInput)
  (p : Product) : InsertStockMovement :=
  let newQuantity :=
    Spec.resultingQuantity (p_quantity p)
      (stockMovementService.d_movementType data)
      (stockMovementService.d_quantity data) in
  mkInsertStockMovement (stockMovementService.d_productId data)
    (stockMovementService.d_movementType data)
    (if MovementType_eqb (stockMovementService.d_movementType data) adjustment
     then newQuantity else stockMovementService.d_quantity data)
    (option_map trim (stockMovementService.d_reason data)).

(** The message of the error thrown for a movement that would drive the
    stock below zero. *)
Definition insufficient_stock (current requested : Z) : Error :=
  mkError ("Insufficient stock. Current: " ++ showZ current
           ++ ", Requested: " ++ showZ requested).

(** §4.1 read as all or nothing: a call that fails has changed neither
    the ledger nor the products. *)
Definition all_or_nothing : Prop :=
  forall data w e w',
    stockMovementService.recordMovement data w = (Throw e, w') ->
    stock_movements w' = stock_movements w /\ products w' = products w.

(** A working socket: the coming [io.emit] does not throw. *)
Definition emit_up (w : World) : Prop := hd false (emit_faults w) = false.

(** What the evaluator emits for a product [p] that is alone in the table,
    with the database and the socket server at work and the clock at 100. *)
Definition alerts_for (p : Product) : list (string * Payload) :=
  emitted
    (snd (stockAlertService.checkAndAlertStockLevel (p_id p)
            (world_of [p] [] 1))).

(** §4.2, the note on a threshold of 0 as it is written, read on what
    the evaluator emits: a product whose threshold is 0 alerts only when
    its quantity is exactly 0. *)
Definition zero_threshold_alerts_only_at_zero : Prop :=
  forall p,
    p_minStockLevel p = 0 -> alerts_for p <> [] -> p_quantity p = 0.

(** §8, the alert tiering boundary, read on what the evaluator emits. *)
Definition tier_boundaries : Prop :=
  forall p,
    let minLevel := p_minStockLevel p in
    0 < minLevel ->
    (p_quantity p = 0 -> alerts_for p = [critical_event p 100]) /\
    (p_quantity p = minLevel - 1 -> alerts_for p = [low_event p 100]) /\
    (p_quantity p = minLevel / 5 - 1 ->
     alerts_for p = [critical_event p 100]) /\
    (p_quantity p = minLevel -> alerts_for p = []).

(** §4.2: the message of the critically low alert differs from the
    message of the out of stock alert. *)
Definition distinct_critical_messages : Prop :=
  forall low out,
    p_id low = p_id out -> p_name low = p_name out ->
    Spec.evaluate (p_quantity low) (p_minStockLevel low)
    = Some Spec.CriticalLow ->
    Spec.evaluate (p_quantity out) (p_minStockLevel out)
    = Some Spec.CriticalOutOfStock ->
    map alert_message (alerts_for low) <> map alert_message (alerts_for out).

(** [tables_kept w w']: the three tables of [w'] are those of [w]. *)
Definition tables_kept (w w' : World) : Prop :=
  products w' = products w /\
  stock_movements w' = stock_movements w /\
  notifications w' = notifications w.

(** [alert_frame w w']: a broadcast run in [w] has ended in [w']; it has
    left the tables alone, and it has emitted only if the socket server
    was there and the emit did not fail. *)
Definition alert_frame (w w' : World) : Prop :=
  tables_kept w w' /\
  (emitted w' = emitted w \/ (io w = true /\ emit_up w)).

(** The world once the database answers every call. *)
Definition db_restored (w : World) : World := set_db_outages [] w.

(** [answer m w]: what the call [m] returns in [w] once the database
    answers every call; [None] when it throws all the same. *)
Definition answer {A} (m : M A) (w : World) : option A :=
  match fst (m (db_restored w)) with
  | Ok a => Some a
  | Throw _ => None
  end.

(** Nothing fails: the database answers every call and no emit throws. *)
Definition calm (w : World) : Prop :=
  db_outages w = [] /\ emit_faults w = [].

(** A series of requests to [recordMovement], served one after the
    other; a request that fails does not stop the next. *)
Fixpoint recordMovements
  (requests : list stockMovementService.StockMovementCreateInput)
  (w : World) : World :=
  match requests with
  | [] => w
  | data :: rest =>
      recordMovements rest
        (snd (stockMovementService.recordMovement data w))
  end.

(** The quantity [recordMovement] computes for [data] on the row [p]. *)
Definition newQuantity_of
  (data : stockMovementService.StockMovementCreateInput) (p : Product) : Z :=
  Spec.resultingQuantity (p_quantity p)
    (stockMovementService.d_movementType data)
    (stockMovementService.d_quantity data).

(** The state after the insert of the ledger row and the update of the
    quantity. *)
Definition moved (data : stockMovementService.StockMovementCreateInput)
  (p : Product) (w : World) : World :=
  update_rows (stockMovementService.d_productId data)
    (stockMovementService.quantity_only (newQuantity_of data p))
    (insert_row (ledger_entry data p) w).

(** Two product rows that differ at most in the quantity and in the date
    of the last update. *)
Definition same_but_quantity (p p' : Product) : Prop :=
  p_id p' = p_id p /\ p_name p' = p_name p /\ p_sku p' = p_sku p /\
  p_description p' = p_description p /\ p_categoryId p' = p_categoryId p /\
  p_unitPrice p' = p_unitPrice p /\
  p_minStockLevel p' = p_minStockLevel p /\ p_createdAt p' = p_createdAt p.

(** The rows a user has not read. *)
Definition unread_of (userId : Z) (ns : list Notification)
  : list Notification :=
  filter (fun n => (n_userId n =? userId)
                   && ReadFlag_eqb (n_read n) read_false) ns.

(** The five counters of a summary, added up. *)
Definition summary_total (s : stockMovementRepository.Summary) : Z :=
  stockMovementRepository.s_purchase s + stockMovementRepository.s_sale s
  + stockMovementRepository.s_adjustment s
  + stockMovementRepository.s_return s + stockMovementRepository.s_damage s.

(** Newest first: the date of a row is at least the date of every row
    after it. *)
Definition newest_first (l : list Notification) : Prop :=
  StronglySorted (fun a b => n_createdAt b <= n_createdAt a) l.

(* ------------------------------------------------------------------ *)
(** ** Reasoning about calls *)

Lemma wp_run {A} (m : M A) Q w r w' :
  m w = (r, w') -> wp m Q w -> Q r w'.
Proof. unfold wp. intros ->. auto. Qed.

Lemma wp_ret {A} (a : A) Q w : Q (Ok a) w -> wp (ret a) Q w.
Proof. auto. Qed.

Lemma wp_throw {A} msg (Q : Result A -> World -> Prop) w :
  Q (Throw (mkError msg)) w -> wp (throw msg) Q w.
Proof. auto. Qed.

Lemma wp_bind {A B} (m : M A) (k : A -> M B) Q w :
  wp m (fun r w1 =>
          match r with
          | Ok a => wp (k a) Q w1
          | Throw e => Q (Throw e) w1
          end) w ->
  wp (bind m k) Q w.
Proof. unfold wp, bind. destruct (m w) as [[a|e] w1]; auto. Qed.

Lemma wp_try_catch {A} (body : M A) handler Q w :
  wp body (fun r w1 =>
             match r with
             | Ok a => Q (Ok a) w1
             | Throw e => wp (handler e) Q w1
             end) w ->
  wp (try_catch body handler) Q w.
Proof. unfold wp, try_catch. destruct (body w) as [[a|e] w1]; auto. Qed.

Lemma wp_mono {A} (m : M A) (Q Q' : Result A -> World -> Prop) w :
  wp m Q w -> (forall r w', Q r w' -> Q' r w') -> wp m Q' w.
Proof. unfold wp. auto. Qed.

Lemma set_db_outages_same w : set_db_outages (db_outages w) w = w.
Proof. destruct w; reflexivity. Qed.

Lemma wp_getDb Q w :
  (forall b l, Q (Ok b) (set_db_outages l w)) -> wp getDb Q w.
Proof.
  intros H. unfold wp, getDb. destruct (db_outages w) as [|down rest] eqn:E.
  - simpl. rewrite <- (set_db_outages_same w). apply H.
  - simpl. apply H.
Qed.

Lemma getDb_up w :
  db_up w -> getDb w = (Ok true, set_db_outages (tl (db_outages w)) w).
Proof.
  unfold db_up, getDb. destruct (db_outages w) as [|down rest] eqn:E; simpl.
  - intros _. rewrite <- E, set_db_outages_same. reflexivity.
  - intros ->. reflexivity.
Qed.

Lemma wp_console_log line Q w :
  Q (Ok tt) (set_console (console w ++ [line])%list w) ->
  wp (console_log line) Q w.
Proof. auto. Qed.

Lemma wp_prim {A} (f : M A) (Q : Result A -> World -> Prop) w :
  Q (fst (f w)) (snd (f w)) -> wp f Q w.
Proof. auto. Qed.

(** One step of symbolic execution of a call. *)
Ltac wp_step :=
  lazymatch goal with
  | |- wp (bind _ _) _ _ => apply wp_bind
  | |- wp (try_catch _ _) _ _ => apply wp_try_catch
  | |- wp getDb _ _ =>
      let b := fresh "db" in
      let l := fresh "l" in
      apply wp_getDb; intros b l; destruct b; cbn [negb]
  | |- wp (ret _) _ _ => apply wp_ret
  | |- wp (throw _) _ _ => apply wp_throw
  | |- wp (console_log _) _ _ => apply wp_console_log
  | |- wp (fun _ => _) _ _ => apply wp_prim; cbn [fst snd]
  | |- wp (match ?x with _ => _ end) _ _ => destruct x eqn:?
  end.

Lemma db_only_refl w : db_only w w.
Proof. exists (db_outages w). symmetry. apply set_db_outages_same. Qed.

Lemma db_only_set l w : db_only w (set_db_outages l w).
Proof. exists l. reflexivity. Qed.

Lemma db_only_trans w w1 w2 : db_only w w1 -> db_only w1 w2 -> db_only w w2.
Proof. intros [l1 ->] [l2 ->]. exists l2. reflexivity. Qed.

Create HintDb world.
#[local] Hint Resolve db_only_refl db_only_set db_only_trans : world.

Lemma wp_product_findById id Q w :
  (forall w', db_only w w' -> Q (Ok (product_of id w)) w') ->
  (forall w' e, db_only w w' -> Q (Throw e) w') ->
  wp (productRepository.findById id) Q w.
Proof.
  intros HOk HThrow. unfold productRepository.findById.
  wp_step. wp_step.
  - wp_step. apply HOk. auto with world.
  - wp_step. apply HThrow. auto with world.
Qed.

Lemma wp_movement_findById id Q w :
  (forall w', db_only w w' ->
     Q (Ok (stockMovementRepository.select_by_id id (stock_movements w))) w') ->
  (forall w' e, db_only w w' -> Q (Throw e) w') ->
  wp (stockMovementRepository.findById id) Q w.
Proof.
  intros HOk HThrow. unfold stockMovementRepository.findById.
  wp_step. wp_step.
  - wp_step. apply HOk. auto with world.
  - wp_step. apply HThrow. auto with world.
Qed.

(** [create] either leaves the ledger alone and throws, or appends the row
    and then throws or returns the row whose [id] is [data.productId]. *)
Lemma wp_movement_create data Q w :
  (forall w' e, db_only w w' -> Q (Throw e) w') ->
  (forall w' e, db_only (insert_row data w) w' -> Q (Throw e) w') ->
  (forall w' created,
     db_only (insert_row data w) w' ->
     stockMovementRepository.select_by_id (i_productId data)
       (stock_movements (insert_row data w)) = Some created ->
     Q (Ok created) w') ->
  wp (stockMovementRepository.create data) Q w.
Proof.
  intros HNone HThrow HOk. unfold stockMovementRepository.create.
  wp_step. wp_step; [|wp_step; apply HNone; auto with world].
  wp_step. unfold stockMovementRepository.db_insert. wp_step.
  destruct (existsb _ _); cbn [fst snd products set_db_outages].
  - apply wp_bind, wp_movement_findById.
    + intros w' [l0 ->].
      destruct (stockMovementRepository.select_by_id _ _) as [created|] eqn:E.
      * wp_step. apply HOk; [exists l0; reflexivity | first [exact E | reflexivity]].
      * wp_step. apply HThrow. exists l0; reflexivity.
    + intros w' e [l0 ->]. apply HThrow. exists l0; reflexivity.
  - apply HNone. auto with world.
Qed.

(** [update id { quantity }] either leaves the table alone and throws, or
    rewrites the rows of that [id]; then it throws or returns the row a
    lookup by [id] sees. *)
Lemma wp_product_update_quantity id q Q w :
  (forall w' e, db_only w w' -> Q (Throw e) w') ->
  (forall w' e,
     db_only (update_rows id (stockMovementService.quantity_only q) w) w' ->
     Q (Throw e) w') ->
  (forall w' updated,
     db_only (update_rows id (stockMovementService.quantity_only q) w) w' ->
     product_of id w' = Some updated ->
     Q (Ok updated) w') ->
  wp (productRepository.update id (stockMovementService.quantity_only q)) Q w.
Proof.
  intros HNone HThrow HOk. unfold productRepository.update.
  wp_step. wp_step; [|wp_step; apply HNone; auto with world].
  wp_step. apply wp_product_findById.
  - intros w' [l0 ->].
    destruct (product_of id (set_db_outages l w)) as [existing|];
      [|wp_step; apply HNone; exists l0; reflexivity].
    wp_step. cbn [productRepository.sku_changes u_sku
                    stockMovementService.quantity_only].
    wp_step. wp_step. unfold productRepository.db_update. wp_step.
    apply wp_bind, wp_product_findById.
    + intros w' [l1 ->].
      destruct (product_of _ _) as [updated|] eqn:E.
      * wp_step. apply HOk; [exists l1; reflexivity | first [exact E | reflexivity]].
      * wp_step. apply HThrow. exists l1; reflexivity.
    + intros w' e [l1 ->]. apply HThrow. exists l1; reflexivity.
  - intros w' e [l0 ->]. apply HNone. exists l0; reflexivity.
Qed.

(* ------------------------------------------------------------------ *)
(** ** The movement engine *)

Lemma apply_set_id data t p :
  p_id (productRepository.apply_set data t p) = p_id p.
Proof.
  unfold productRepository.apply_set. cbv zeta.
  destruct (productRepository.Product_eqb _ p); reflexivity.
Qed.

(** After [set({ quantity })] the row holds that quantity. *)
Lemma apply_set_quantity q t p :
  p_quantity
    (productRepository.apply_set (stockMovementService.quantity_only q) t p)
  = q.
Proof.
  unfold productRepository.apply_set. cbv zeta.
  destruct (productRepository.Product_eqb _ p) eqn:E; [|reflexivity].
  unfold productRepository.Product_eqb in E.
  repeat (apply andb_prop in E; destruct E as [E _]).
  apply Z.eqb_eq in E. symmetry. exact E.
Qed.

Lemma select_by_id_update id data t rows :
  productRepository.select_by_id id
    (map (fun p => if p_id p =? id
                   then productRepository.apply_set data t p else p) rows)
  = option_map (productRepository.apply_set data t)
      (productRepository.select_by_id id rows).
Proof.
  unfold productRepository.select_by_id.
  induction rows as [|p rows IH]; [reflexivity|].
  cbn [map find]. destruct (p_id p =? id) eqn:E.
  - rewrite apply_set_id, E. reflexivity.
  - rewrite E. exact IH.
Qed.

Lemma product_of_db_only id w w' :
  db_only w w' -> product_of id w' = product_of id w.
Proof. intros [l ->]. reflexivity. Qed.

Lemma product_of_updated id q w w' :
  db_only (update_rows id (stockMovementService.quantity_only q) w) w' ->
  product_of id w'
  = option_map
      (productRepository.apply_set (stockMovementService.quantity_only q)
         (clock w))
      (product_of id w).
Proof.
  intros [l ->]. unfold product_of, update_rows. cbn [products set_products
    set_db_outages]. apply select_by_id_update.
Qed.

Lemma product_of_inserted id data w w' :
  db_only (insert_row data w) w' -> product_of id w' = product_of id w.
Proof. intros [l ->]. reflexivity. Qed.

(** C1. A successful [recordMovement] on a product that had [Q] units
    leaves it with [Q + quantity] units for a purchase or a return, with
    [Q - quantity] units for a sale or a damage, and with exactly
    [quantity] units for an adjustment. *)
Theorem recordMovement_new_quantity data w movement w' p :
  product_of (stockMovementService.d_productId data) w = Some p ->
  stockMovementService.recordMovement data w = (Ok movement, w') ->
  exists p',
    product_of (stockMovementService.d_productId data) w' = Some p' /\
    p_quantity p'
    = Spec.resultingQuantity (p_quantity p)
        (stockMovementService.d_movementType data)
        (stockMovementService.d_quantity data).
Proof.
  intros Hp Hrun.
  refine (wp_run _
            (fun r w' =>
               match r with
               | Ok _ =>
                   exists p',
                   product_of (stockMovementService.d_productId data) w'
                   = Some p' /\
                   p_quantity p'
                   = Spec.resultingQuantity (p_quantity p)
                       (stockMovementService.d_movementType data)
                       (stockMovementService.d_quantity data)
               | Throw _ => True
               end) _ _ _ Hrun _).
  unfold stockMovementService.recordMovement.
  apply wp_bind, wp_product_findById; [|trivial].
  intros w1 H1. rewrite Hp.
  destruct (_ <=? 0); [wp_step; exact I|].
  destruct (negb _); [wp_step; exact I|].
  destruct (_ <? 0); [wp_step; exact I|].
  apply wp_bind, wp_movement_create; [trivial | trivial |].
  intros w2 created H2 _.
  apply wp_bind, wp_product_update_quantity; [trivial | trivial |].
  intros w3 updated H3 Hupdated. wp_step.
  exists updated. split; [exact Hupdated|].
  rewrite (product_of_updated _ _ _ _ H3) in Hupdated.
  rewrite (product_of_inserted _ _ _ _ H2) in Hupdated.
  rewrite (product_of_db_only _ _ _ H1), Hp in Hupdated.
  injection Hupdated as <-. rewrite apply_set_quantity.
  destruct (stockMovementService.d_movementType data); reflexivity.
Qed.

(** A first purchase of 5 units of product 1, which had 10. *)
Lemma recordMovement_new_quantity_witness :
  let data := stockMovementService.mkInput 1 purchase 5 None in
  let w := world_of [widget 1 10 20] [] 1 in
  product_of 1 w = Some (widget 1 10 20) /\
  exists movement w',
    stockMovementService.recordMovement data w = (Ok movement, w') /\
    exists p', product_of 1 w' = Some p' /\ p_quantity p' = 15.
Proof.
  intros data w. split; [reflexivity|].
  eexists. eexists. split; [vm_compute; reflexivity|].
  refine (recordMovement_new_quantity data w _ _ (widget 1 10 20) eq_refl _).
  vm_compute; reflexivity.
Defined.

(** Scenarios A, B and E of §8: a sale of 85 units out of 100 leaves 15,
    under the threshold of 20 (warning); a sale of 97 leaves 3, under 20%
    of the threshold (critical); an adjustment to 40 of a product that has
    10 leaves exactly 40, and the ledger row stores 40. *)
Example scenario_A :
  let w := world_of [widget 1 100 20] [] 1 in
  let w' :=
    snd (stockMovementService.recordMovement
           (stockMovementService.mkInput 1 sale 85 None) w) in
  option_map p_quantity (product_of 1 w') = Some 15 /\
  option_map (fun p => Spec.evaluate (p_quantity p) (p_minStockLevel p))
    (product_of 1 w') = Some (Some Spec.Warning).
Proof. split; reflexivity. Qed.

Example scenario_B :
  let w := world_of [widget 1 100 20] [] 1 in
  let w' :=
    snd (stockMovementService.recordMovement
           (stockMovementService.mkInput 1 sale 97 None) w) in
  option_map p_quantity (product_of 1 w') = Some 3 /\
  option_map (fun p => Spec.evaluate (p_quantity p) (p_minStockLevel p))
    (product_of 1 w') = Some (Some Spec.CriticalLow).
Proof. split; reflexivity. Qed.

Example scenario_E :
  let w := world_of [widget 1 10 20] [] 1 in
  let run :=
    stockMovementService.recordMovement
      (stockMovementService.mkInput 1 adjustment 40 (Some "  recount ")) w in
  fst run = Ok (mkStockMovement 1 1 adjustment 40 (Some "recount") 100) /\
  option_map p_quantity (product_of 1 (snd run)) = Some 40.
Proof. split; reflexivity. Qed.

Lemma product_findById_up id w :
  db_up w ->
  productRepository.findById id w
  = (Ok (product_of id w), set_db_outages (tl (db_outages w)) w).
Proof.
  intros Hup. unfold productRepository.findById, bind.
  rewrite (getDb_up w Hup). reflexivity.
Qed.

(** C2. When the resulting quantity would be negative, [recordMovement]
    throws the error whose message carries the current and the requested
    quantity, and neither the products nor the ledger are changed.  The
    product is there, the quantity is positive and the database answers
    the lookup, so that the resulting quantity is computed at all. *)
Theorem recordMovement_insufficient_stock data w p :
  db_up w ->
  product_of (stockMovementService.d_productId data) w = Some p ->
  0 < stockMovementService.d_quantity data ->
  Spec.resultingQuantity (p_quantity p)
    (stockMovementService.d_movementType data)
    (stockMovementService.d_quantity data) < 0 ->
  exists w',
    stockMovementService.recordMovement data w
    = (Throw (insufficient_stock (p_quantity p)
                (stockMovementService.d_quantity data)), w') /\
    products w' = products w /\
    stock_movements w' = stock_movements w /\
    stock_movements_auto w' = stock_movements_auto w.
Proof.
  intros Hup Hp Hq Hneg.
  exists (set_db_outages (tl (db_outages w)) w).
  split; [|repeat split].
  unfold stockMovementService.recordMovement, bind.
  rewrite (product_findById_up _ w Hup), Hp.
  destruct (Z.leb_spec (stockMovementService.d_quantity data) 0) as [H|_];
    [lia|].
  replace (stockMovementService.includes _ _) with true
    by (destruct (stockMovementService.d_movementType data); reflexivity).
  cbn [negb].
  unfold Spec.resultingQuantity in Hneg.
  destruct (stockMovementService.d_movementType data);
    match goal with
    | |- context [?a <? 0] =>
        destruct (Z.ltb_spec a 0); [reflexivity | lia]
    end.
Qed.

(** Scenario D: a sale of 20 units of a product that has 10. *)
Lemma recordMovement_insufficient_stock_witness :
  let data := stockMovementService.mkInput 1 sale 20 None in
  let w := world_of [widget 1 10 20] [] 1 in
  exists w',
    stockMovementService.recordMovement data w
    = (Throw (insufficient_stock 10 20), w') /\
    products w' = products w /\
    stock_movements w' = stock_movements w /\
    stock_movements_auto w' = stock_movements_auto w.
Proof.
  intros data w.
  apply (recordMovement_insufficient_stock data w (widget 1 10 20));
    [reflexivity | reflexivity | reflexivity | reflexivity].
Defined.

Lemma db_only_insert_row d w w1 w2 :
  db_only w w1 -> db_only (insert_row d w1) w2 -> db_only (insert_row d w) w2.
Proof. intros [l1 ->] [l2 ->]. exists l2. reflexivity. Qed.

Lemma db_only_update_rows id d w w1 w2 :
  db_only w w1 -> db_only (update_rows id d w1) w2 ->
  db_only (update_rows id d w) w2.
Proof. intros [l1 ->] [l2 ->]. exists l2. reflexivity. Qed.

(** C3, as the code has it.  [recordMovement] opens no transaction and
    rolls nothing back: it inserts the ledger row, then updates the
    quantity.  A call ends in one of three states: nothing is changed and
    the call has failed; only the ledger row is there and the call has
    failed; the ledger row is there and the quantity is updated.  The
    quantity is never updated without the ledger row. *)
Theorem recordMovement_commit_order data w :
  let id := stockMovementService.d_productId data in
  let r := fst (stockMovementService.recordMovement data w) in
  let w' := snd (stockMovementService.recordMovement data w) in
  ((exists e, r = Throw e) /\ db_only w w') \/
  exists p,
    product_of id w = Some p /\
    let row := ledger_entry data p in
    let newQuantity :=
      Spec.resultingQuantity (p_quantity p)
        (stockMovementService.d_movementType data)
        (stockMovementService.d_quantity data) in
    ((exists e, r = Throw e) /\ db_only (insert_row row w) w') \/
    db_only
      (update_rows id (stockMovementService.quantity_only newQuantity)
         (insert_row row w)) w'.
Proof.
  intros id.
  change (wp (stockMovementService.recordMovement data)
            (fun r w' =>
               ((exists e, r = Throw e) /\ db_only w w') \/
               exists p,
                 product_of id w = Some p /\
                 (((exists e, r = Throw e) /\
                   db_only (insert_row (ledger_entry data p) w) w') \/
                  db_only
                    (update_rows id
                       (stockMovementService.quantity_only
                          (Spec.resultingQuantity (p_quantity p)
                             (stockMovementService.d_movementType data)
                             (stockMovementService.d_quantity data)))
                       (insert_row (ledger_entry data p) w)) w')) w).
  unfold stockMovementService.recordMovement.
  apply wp_bind, wp_product_findById; [|intros; left; eauto].
  intros w1 H1. fold id.
  destruct (product_of id w) as [p|] eqn:Hp; [|wp_step; left; eauto].
  destruct (_ <=? 0); [wp_step; left; eauto|].
  destruct (negb _); [wp_step; left; eauto|].
  destruct (_ <? 0); [wp_step; left; eauto|].
  apply wp_bind, wp_movement_create.
  - intros w2 e H2. left. eauto with world.
  - intros w2 e H2. right. exists p. split; [reflexivity|]. left.
    split; [eauto|]. exact (db_only_insert_row _ _ _ _ H1 H2).
  - intros w2 created H2 _.
    pose proof (db_only_insert_row _ _ _ _ H1 H2) as H2'.
    apply wp_bind, wp_product_update_quantity.
    + intros w3 e H3. right. exists p. split; [reflexivity|]. left.
      split; [eauto|]. eauto with world.
    + intros w3 e H3. right. exists p. split; [reflexivity|]. right.
      exact (db_only_update_rows _ _ _ _ _ H2' H3).
    + intros w3 updated H3 _. wp_step. right. exists p.
      split; [reflexivity|]. right.
      exact (db_only_update_rows _ _ _ _ _ H2' H3).
Qed.

(** C3, as stated, fails.  The database is lost between the insert of the
    ledger row and the update of the product: the fourth [getDb()] of the
    call resolves to [null].  The call fails, the ledger row of the
    purchase is there, and the product still has 10 units. *)
Lemma recordMovement_ledger_without_quantity :
  let data := stockMovementService.mkInput 1 purchase 5 None in
  let w :=
    with_outages [false; false; false; true]
      (world_of [widget 1 10 20] [] 1) in
  (exists w',
     stockMovementService.recordMovement data w
     = (Throw (mkError "Database connection failed"), w') /\
     stock_movements w' = [mkStockMovement 1 1 purchase 5 None 100] /\
     product_of 1 w' = Some (widget 1 10 20)) /\
  ~ all_or_nothing.
Proof.
  intros data w. split.
  - eexists. split; [vm_compute; reflexivity|]. split; reflexivity.
  - intros H.
    destruct (H data w (mkError "Database connection failed")
                (snd (stockMovementService.recordMovement data w)))
      as [Hledger _]; [vm_compute; reflexivity|].
    vm_compute in Hledger. discriminate Hledger.
Qed.

Lemma movement_select_by_id_id id rows m :
  stockMovementRepository.select_by_id id rows = Some m -> m_id m = id.
Proof.
  unfold stockMovementRepository.select_by_id. intros H.
  apply find_some in H. destruct H as [_ H]. apply Z.eqb_eq. exact H.
Qed.

(** What [recordMovement] returns on success is the ledger row whose
    [id] is the identifier of the product. *)
Lemma recordMovement_returns_row_of_product_id data w movement w' :
  stockMovementService.recordMovement data w = (Ok movement, w') ->
  stockMovementRepository.select_by_id (stockMovementService.d_productId data)
    (stock_movements w') = Some movement /\
  m_id movement = stockMovementService.d_productId data.
Proof.
  intros Hrun.
  refine (wp_run _
            (fun r w' =>
               match r with
               | Ok movement =>
                   stockMovementRepository.select_by_id
                     (stockMovementService.d_productId data)
                     (stock_movements w') = Some movement /\
                   m_id movement = stockMovementService.d_productId data
               | Throw _ => True
               end) _ _ _ Hrun _).
  unfold stockMovementService.recordMovement.
  apply wp_bind, wp_product_findById; [|trivial].
  intros w1 H1.
  destruct (product_of _ w) as [p|]; [|wp_step; exact I].
  destruct (_ <=? 0); [wp_step; exact I|].
  destruct (negb _); [wp_step; exact I|].
  destruct (_ <? 0); [wp_step; exact I|].
  apply wp_bind, wp_movement_create; [trivial | trivial |].
  intros w2 created H2 Hcreated.
  apply wp_bind, wp_product_update_quantity; [trivial | trivial |].
  intros w3 updated [l3 ->] _. wp_step. destruct H2 as [l2 ->].
  split; [exact Hcreated|].
  exact (movement_select_by_id_id _ _ _ Hcreated).
Qed.

(** C4 on the code.  Product 1 has one purchase of 5 units in the ledger,
    row 1.  A sale of 2 units succeeds and appends row 2, the sale; the
    call returns row 1, the purchase: [create] reads back the movement
    whose [id] is [data.productId]. *)
Lemma recordMovement_returns_another_row :
  let earlier := mkStockMovement 1 1 purchase 5 None 50 in
  let data := stockMovementService.mkInput 1 sale 2 (Some "sold") in
  let w := world_of [widget 1 10 20] [earlier] 2 in
  let created := mkStockMovement 2 1 sale 2 (Some "sold") 100 in
  exists w',
    stockMovementService.recordMovement data w = (Ok earlier, w') /\
    stock_movements w' = [earlier; created] /\
    product_of 1 w' = Some (mkProduct 1 "Widget" "W-1" None 1 8 "9.99" 20 0 100) /\
    earlier <> created.
Proof.
  intros earlier data w created.
  eexists. split; [vm_compute; reflexivity|].
  split; [reflexivity|]. split; [reflexivity|]. discriminate.
Qed.

(** The first movement of a product whose identifier is not 1 is inserted
    and then reported as a failure: no movement has that [id] yet.  The
    ledger row stays, the quantity is not updated. *)
Lemma recordMovement_first_movement_fails :
  let data := stockMovementService.mkInput 5 purchase 3 None in
  let w := world_of [widget 5 10 20] [] 1 in
  exists w',
    stockMovementService.recordMovement data w
    = (Throw (mkError "Failed to create stock movement"), w') /\
    stock_movements w' = [mkStockMovement 1 5 purchase 3 None 100] /\
    product_of 5 w' = Some (widget 5 10 20).
Proof.
  intros data w. eexists. split; [vm_compute; reflexivity|].
  split; reflexivity.
Qed.

(* ------------------------------------------------------------------ *)
(** ** The alert evaluator *)

(** The comparison with [minLevel * 0.2], on integers. *)
Lemma number_lt_fifth (q m : Z) :
  stockAlertService.number_lt (inject_Z q) (inject_Z m * 0.2)
  = (5 * q <? m).
Proof.
  unfold stockAlertService.number_lt, Qle_bool.
  change (Qnum (inject_Z m * 0.2)) with (m * 2).
  change (QDen (inject_Z q)) with 1.
  change (Qnum (inject_Z q)) with q.
  change (QDen (inject_Z m * 0.2)) with 10.
  destruct (Z.leb_spec (m * 2 * 1) (q * 10)), (Z.ltb_spec (5 * q) m);
    cbn [negb]; try reflexivity; lia.
Qed.

Lemma product_select_by_id_id id rows p :
  productRepository.select_by_id id rows = Some p -> p_id p = id.
Proof.
  unfold productRepository.select_by_id. intros H.
  apply find_some in H. destruct H as [_ H]. apply Z.eqb_eq. exact H.
Qed.

Lemma broadcastCriticalStockAlert_up p w :
  io w = true -> emit_up w ->
  exists w',
    websocketService.broadcastCriticalStockAlert (p_id p) (p_name p) w
    = (Ok tt, w') /\
    emitted w' = (emitted w ++ [critical_event p (clock w)])%list.
Proof.
  intros Hio Hemit.
  unfold websocketService.broadcastCriticalStockAlert, bind,
    websocketService.io_ready, now, websocketService.io_emit, emit_up in *.
  rewrite Hio. cbn [negb].
  destruct (emit_faults w) as [|[] rest]; [| discriminate Hemit |];
    eexists; (split; [reflexivity|]); reflexivity.
Qed.

Lemma broadcastLowStockAlert_up p w :
  io w = true -> emit_up w ->
  exists w',
    websocketService.broadcastLowStockAlert (p_id p) (p_name p)
      (p_quantity p) (p_minStockLevel p) w
    = (Ok tt, w') /\
    emitted w' = (emitted w ++ [low_event p (clock w)])%list.
Proof.
  intros Hio Hemit.
  unfold websocketService.broadcastLowStockAlert, bind,
    websocketService.io_ready, now, websocketService.io_emit, emit_up in *.
  rewrite Hio. cbn [negb].
  destruct (emit_faults w) as [|[] rest]; [| discriminate Hemit |];
    eexists; (split; [reflexivity|]); reflexivity.
Qed.

(** With the database and the socket at work, the evaluator emits the
    event of the tier of the product, and nothing else. *)
Lemma checkAndAlertStockLevel_emitted productId w p :
  db_up w -> io w = true -> emit_up w ->
  product_of productId w = Some p ->
  emitted (snd (stockAlertService.checkAndAlertStockLevel productId w))
  = (emitted w
     ++ events_of_tier
          (Spec.evaluate (p_quantity p) (p_minStockLevel p)) p (clock w))%list.
Proof.
  intros Hup Hio Hemit Hp.
  pose proof (product_select_by_id_id _ _ _ Hp) as Hid. subst productId.
  unfold stockAlertService.checkAndAlertStockLevel, try_catch, bind.
  rewrite (product_findById_up _ w Hup), Hp.
  rewrite number_lt_fifth. unfold Spec.evaluate.
  set (w1 := set_db_outages (tl (db_outages w)) w).
  assert (Hio1 : io w1 = true) by exact Hio.
  assert (Hemit1 : emit_up w1) by exact Hemit.
  destruct (broadcastCriticalStockAlert_up p w1 Hio1 Hemit1)
    as (wc & Ec & Hc).
  destruct (broadcastLowStockAlert_up p w1 Hio1 Hemit1) as (wl & El & Hl).
  destruct (p_quantity p =? 0);
    [rewrite Ec; exact Hc|].
  destruct (5 * p_quantity p <? p_minStockLevel p);
    [rewrite Ec; exact Hc|].
  destruct (p_quantity p <? p_minStockLevel p);
    [rewrite El; exact Hl|].
  cbn. rewrite app_nil_r. reflexivity.
Qed.

Lemma alerts_for_tier p :
  alerts_for p
  = events_of_tier (Spec.evaluate (p_quantity p) (p_minStockLevel p)) p 100.
Proof.
  unfold alerts_for.
  rewrite (checkAndAlertStockLevel_emitted (p_id p) _ p);
    try reflexivity.
  unfold product_of, productRepository.select_by_id. cbn.
  rewrite Z.eqb_refl. reflexivity.
Qed.

Lemma app_one_neq {A} (l : list A) (x : A) : (l ++ [x])%list <> l.
Proof.
  intros H. apply (f_equal (@List.length A)) in H.
  rewrite length_app in H. cbn in H. lia.
Qed.

(** C5, as the code has it.  The evaluator classifies by first match:
    [Q == 0] is Critical, out of stock, whatever the threshold; else
    [Q < minLevel * 0.2] is Critical; else [Q < minLevel] is Warning;
    otherwise nothing is emitted.  A product whose threshold is 0 and
    whose quantity is not negative alerts only when the quantity is
    exactly 0; with a threshold of 0 a negative quantity is under 20% of
    the threshold and gets the critical alert. *)
Theorem checkAndAlertStockLevel_first_match productId w p :
  db_up w -> io w = true -> emit_up w ->
  product_of productId w = Some p ->
  let w' := snd (stockAlertService.checkAndAlertStockLevel productId w) in
  emitted w'
  = (emitted w
     ++ events_of_tier
          (Spec.evaluate (p_quantity p) (p_minStockLevel p)) p (clock w))%list
  /\ (p_quantity p = 0 ->
      emitted w' = (emitted w ++ [critical_event p (clock w)])%list)
  /\ (0 <= p_quantity p -> p_minStockLevel p = 0 ->
      (emitted w' <> emitted w <-> p_quantity p = 0))
  /\ (p_quantity p < 0 -> p_minStockLevel p = 0 ->
      emitted w' = (emitted w ++ [critical_event p (clock w)])%list).
Proof.
  intros Hup Hio Hemit Hp w'.
  pose proof (checkAndAlertStockLevel_emitted _ _ _ Hup Hio Hemit Hp) as H.
  fold w' in H. split; [exact H|]. split; [|split].
  - intros HQ. rewrite H, HQ. reflexivity.
  - intros Hpos Hmin. rewrite H, Hmin. unfold Spec.evaluate.
    destruct (Z.eqb_spec (p_quantity p) 0) as [HQ|HQ].
    + split; [trivial|]. intros _. apply app_one_neq.
    + destruct (Z.ltb_spec (5 * p_quantity p) 0); [lia|].
      destruct (Z.ltb_spec (p_quantity p) 0); [lia|].
      cbn [events_of_tier]. rewrite app_nil_r. split; [|contradiction].
      intros Hne. contradiction Hne. reflexivity.
  - intros Hneg Hmin. rewrite H, Hmin. unfold Spec.evaluate.
    destruct (Z.eqb_spec (p_quantity p) 0) as [HQ|HQ]; [lia|].
    destruct (Z.ltb_spec (5 * p_quantity p) 0); [reflexivity | lia].
Qed.

(** A threshold of 0: with 0 units the product alerts, with 7 units it
    does not, with -5 units it gets the critical alert. *)
Lemma checkAndAlertStockLevel_first_match_witness :
  (let p := widget 1 0 0 in
   let w := world_of [p] [] 1 in
   let w' := snd (stockAlertService.checkAndAlertStockLevel 1 w) in
   0 <= p_quantity p /\ p_minStockLevel p = 0 /\
   (emitted w' <> emitted w <-> p_quantity p = 0)) /\
  (let p := widget 1 7 0 in
   let w := world_of [p] [] 1 in
   let w' := snd (stockAlertService.checkAndAlertStockLevel 1 w) in
   0 <= p_quantity p /\ p_minStockLevel p = 0 /\
   (emitted w' <> emitted w <-> p_quantity p = 0)) /\
  (let p := widget 1 (-5) 0 in
   let w := world_of [p] [] 1 in
   let w' := snd (stockAlertService.checkAndAlertStockLevel 1 w) in
   p_quantity p < 0 /\ p_minStockLevel p = 0 /\
   emitted w' = (emitted w ++ [critical_event p (clock w)])%list).
Proof.
  split; [|split]; intros p w w'.
  - split; [discriminate|]. split; [reflexivity|].
    exact (proj1 (proj2 (proj2
             (checkAndAlertStockLevel_first_match 1 w p
                eq_refl eq_refl eq_refl eq_refl)))
             ltac:(discriminate) eq_refl).
  - split; [discriminate|]. split; [reflexivity|].
    exact (proj1 (proj2 (proj2
             (checkAndAlertStockLevel_first_match 1 w p
                eq_refl eq_refl eq_refl eq_refl)))
             ltac:(discriminate) eq_refl).
  - split; [reflexivity|]. split; [reflexivity|].
    exact (proj2 (proj2 (proj2
             (checkAndAlertStockLevel_first_match 1 w p
                eq_refl eq_refl eq_refl eq_refl)))
             eq_refl eq_refl).
Defined.

(** C5, as stated, fails on its last sentence: with a threshold of 0 and
    -5 units the second check, [Q < minLevel * 0.2], holds and the
    evaluator emits the critical alert, though the quantity is not 0. *)
Lemma zero_threshold_alerts_on_negative_quantity :
  let p := widget 1 (-5) 0 in
  p_minStockLevel p = 0 /\ p_quantity p <> 0 /\
  alerts_for p = [critical_event p 100] /\
  ~ zero_threshold_alerts_only_at_zero.
Proof.
  intros p. split; [reflexivity|]. split; [discriminate|].
  split; [reflexivity|].
  intros H. assert (Hq : p_quantity p = 0).
  { apply H; [reflexivity|]. vm_compute. discriminate. }
  discriminate Hq.
Qed.

(** C6, as the code has it.  For every threshold [minLevel > 0]: a
    quantity of 0 gives the critical alert; a quantity of [minLevel - 1]
    gives the warning when [minLevel >= 2]; a quantity of
    [floor(minLevel * 0.2) - 1] gives the critical alert, by the check of
    20% when [minLevel >= 10]; a quantity of [minLevel] gives no alert. *)
Theorem checkAndAlertStockLevel_boundaries p :
  let minLevel := p_minStockLevel p in
  0 < minLevel ->
  (p_quantity p = 0 -> alerts_for p = [critical_event p 100]) /\
  (2 <= minLevel -> p_quantity p = minLevel - 1 ->
   alerts_for p = [low_event p 100]) /\
  (p_quantity p = minLevel / 5 - 1 ->
   alerts_for p = [critical_event p 100] /\
   (10 <= minLevel ->
    Spec.evaluate (p_quantity p) minLevel = Some Spec.CriticalLow)) /\
  (p_quantity p = minLevel -> alerts_for p = []).
Proof.
  intros minLevel Hmin. rewrite alerts_for_tier. fold minLevel.
  unfold Spec.evaluate.
  pose proof (Z.div_mod minLevel 5 ltac:(lia)) as Hdiv.
  pose proof (Z.mod_pos_bound minLevel 5 ltac:(lia)) as Hmod.
  repeat split; intros.
  - destruct (Z.eqb_spec (p_quantity p) 0); [reflexivity | contradiction].
  - destruct (Z.eqb_spec (p_quantity p) 0); [lia|].
    destruct (Z.ltb_spec (5 * p_quantity p) minLevel); [lia|].
    destruct (Z.ltb_spec (p_quantity p) minLevel); [reflexivity | lia].
  - destruct (Z.eqb_spec (p_quantity p) 0); [reflexivity|].
    destruct (Z.ltb_spec (5 * p_quantity p) minLevel); [reflexivity | lia].
  - destruct (Z.eqb_spec (p_quantity p) 0); [lia|].
    destruct (Z.ltb_spec (5 * p_quantity p) minLevel); [reflexivity | lia].
  - destruct (Z.eqb_spec (p_quantity p) 0); [lia|].
    destruct (Z.ltb_spec (5 * p_quantity p) minLevel); [lia|].
    destruct (Z.ltb_spec (p_quantity p) minLevel); [lia | reflexivity].
Qed.

(** The boundaries of a threshold of 20, at a quantity of 19. *)
Lemma checkAndAlertStockLevel_boundaries_witness :
  let p := widget 1 19 20 in
  0 < p_minStockLevel p /\
  (2 <= p_minStockLevel p /\ p_quantity p = p_minStockLevel p - 1) /\
  alerts_for p = [low_event p 100].
Proof.
  intros p.
  split; [reflexivity|]. split; [split; [discriminate | reflexivity]|].
  exact (proj1 (proj2 (checkAndAlertStockLevel_boundaries p eq_refl))
           ltac:(discriminate) eq_refl).
Defined.

(** C6, as stated, fails at [minLevel = 1]: the quantity [minLevel - 1]
    is 0, and the evaluator emits the critical alert, not the warning. *)
Lemma tier_boundaries_fail_at_threshold_1 :
  let p := widget 1 0 1 in
  p_quantity p = p_minStockLevel p - 1 /\
  alerts_for p = [critical_event p 100] /\
  alerts_for p <> [low_event p 100] /\
  ~ tier_boundaries.
Proof.
  intros p. split; [reflexivity|]. split; [reflexivity|].
  assert (Hne : alerts_for p <> [low_event p 100])
    by (vm_compute; discriminate).
  split; [exact Hne|].
  intros H. destruct (H p eq_refl) as (_ & Hlow & _).
  exact (Hne (Hlow eq_refl)).
Qed.

(** C7, as the code has it.  A product that is critically low and a
    product that is out of stock, with the same identifier and name, get
    the same event: one critical alert, whose message reads "is out of
    stock or critically low!" in both cases. *)
Theorem critical_alerts_share_message low out :
  p_id low = p_id out -> p_name low = p_name out ->
  Spec.evaluate (p_quantity low) (p_minStockLevel low)
  = Some Spec.CriticalLow ->
  Spec.evaluate (p_quantity out) (p_minStockLevel out)
  = Some Spec.CriticalOutOfStock ->
  alerts_for low = alerts_for out /\
  map alert_message (alerts_for low)
  = ["Product " ++ dquote ++ p_name low ++ dquote
     ++ " is out of stock or critically low!"].
Proof.
  intros Hid Hname Hlow Hout.
  rewrite !alerts_for_tier, Hlow, Hout.
  unfold events_of_tier, critical_event. rewrite Hid, Hname.
  split; reflexivity.
Qed.

(** 3 units against a threshold of 20, and 0 units. *)
Lemma critical_alerts_share_message_witness :
  alerts_for (widget 1 3 20) = alerts_for (widget 1 0 20) /\
  map alert_message (alerts_for (widget 1 3 20))
  = ["Product " ++ dquote ++ "Widget" ++ dquote
     ++ " is out of stock or critically low!"].
Proof.
  apply (critical_alerts_share_message (widget 1 3 20) (widget 1 0 20));
    reflexivity.
Defined.

(** C7, as stated, fails: with 3 units against a threshold of 20 the
    product is critically low, with 0 units it is out of stock, and the
    two alerts carry the same message. *)
Lemma critical_messages_not_distinct :
  Spec.evaluate 3 20 = Some Spec.CriticalLow /\
  Spec.evaluate 0 20 = Some Spec.CriticalOutOfStock /\
  map alert_message (alerts_for (widget 1 3 20))
  = map alert_message (alerts_for (widget 1 0 20)) /\
  ~ distinct_critical_messages.
Proof.
  split; [reflexivity|]. split; [reflexivity|]. split; [reflexivity|].
  intros H.
  apply (H (widget 1 3 20) (widget 1 0 20)); reflexivity.
Qed.

(** [try { ... } catch { console.error(...) }] on a call without result:
    the call completes normally, and the catch only writes to the
    console. *)
Lemma try_catch_log_total (body : M unit) (msg : Error -> string) w :
  fst (try_catch body (fun e => console_log (msg e)) w) = Ok tt.
Proof. unfold try_catch. destruct (body w) as [[[]|e] w1]; reflexivity. Qed.

Lemma try_catch_log_world (body : M unit) (msg : Error -> string) w :
  exists lines,
    snd (try_catch body (fun e => console_log (msg e)) w)
    = set_console lines (snd (body w)).
Proof.
  unfold try_catch. destruct (body w) as [[[]|e] w1]; cbn [snd console_log].
  - exists (console w1). destruct w1; reflexivity.
  - eexists; reflexivity.
Qed.

Lemma tables_kept_refl w : tables_kept w w.
Proof. repeat split. Qed.

Lemma tables_kept_trans w w1 w2 :
  tables_kept w w1 -> tables_kept w1 w2 -> tables_kept w w2.
Proof.
  unfold tables_kept. intros (H1 & H2 & H3) (H4 & H5 & H6).
  repeat split; congruence.
Qed.

Lemma tables_kept_db_only w w' : db_only w w' -> tables_kept w w'.
Proof. intros [l ->]. repeat split. Qed.

#[local] Hint Resolve tables_kept_refl tables_kept_db_only : world.

Lemma product_findById_cases id w :
  (db_up w /\
   productRepository.findById id w
   = (Ok (product_of id w), set_db_outages (tl (db_outages w)) w)) \/
  (exists e,
     productRepository.findById id w
     = (Throw e, set_db_outages (tl (db_outages w)) w)).
Proof.
  unfold productRepository.findById, bind, getDb, db_up.
  destruct (db_outages w) as [|[] rest] eqn:E; cbn [negb hd tl].
  - left. split; [reflexivity|]. rewrite <- E, set_db_outages_same.
    reflexivity.
  - right. eexists. reflexivity.
  - left. split; reflexivity.
Qed.

(** The three broadcasts: no table is touched, and nothing is emitted
    unless the socket server is there and works. *)
Ltac broadcast_frame w :=
  unfold alert_frame, tables_kept, emit_up, bind,
    websocketService.io_ready, now, websocketService.io_emit;
  destruct (io w); cbn [negb ret fst snd];
  [destruct (emit_faults w) as [|[] faults]; cbn [fst snd console_log hd]|];
  repeat split; solve [left; reflexivity | right; split; reflexivity].

Lemma broadcastCriticalStockAlert_frame id name w :
  alert_frame w (snd (websocketService.broadcastCriticalStockAlert id name w)).
Proof.
  unfold websocketService.broadcastCriticalStockAlert. broadcast_frame w.
Qed.

Lemma broadcastLowStockAlert_frame id name q m w :
  alert_frame w (snd (websocketService.broadcastLowStockAlert id name q m w)).
Proof.
  unfold websocketService.broadcastLowStockAlert. broadcast_frame w.
Qed.

Lemma broadcastStockMovement_frame id name t q reason w :
  alert_frame w
    (snd (websocketService.broadcastStockMovement id name t q reason w)).
Proof.
  unfold websocketService.broadcastStockMovement. broadcast_frame w.
Qed.

(** The evaluator leaves the tables alone; it emits only if the lookup
    has answered with a product and the socket has worked. *)
Lemma checkAndAlertStockLevel_frame productId w :
  let w' := snd (stockAlertService.checkAndAlertStockLevel productId w) in
  tables_kept w w' /\
  (emitted w' = emitted w \/
   (db_up w /\ io w = true /\ emit_up w /\
    exists p, product_of productId w = Some p)).
Proof.
  unfold stockAlertService.checkAndAlertStockLevel.
  match goal with
  | |- context [try_catch ?body (fun e => console_log (@?msg e))] =>
      destruct (try_catch_log_world body msg w) as [lines ->]
  end.
  unfold bind.
  destruct (product_findById_cases productId w) as [[Hup ->]|[e ->]];
    [|split; [repeat split | left; reflexivity]].
  set (w1 := set_db_outages (tl (db_outages w)) w).
  destruct (product_of productId w) as [p|] eqn:Hp;
    [|split; [repeat split | left; reflexivity]].
  cbv zeta.
  pose proof (broadcastCriticalStockAlert_frame productId (p_name p) w1)
    as ((Hc1 & Hc2 & Hc3) & Hce).
  pose proof (broadcastLowStockAlert_frame productId (p_name p)
                (p_quantity p) (p_minStockLevel p) w1)
    as ((Hl1 & Hl2 & Hl3) & Hle).
  assert (Hsome : exists p0, Some p = Some p0) by (exists p; reflexivity).
  destruct (p_quantity p =? 0);
    [|destruct (stockAlertService.number_lt _ _);
      [|destruct (p_quantity p <? p_minStockLevel p)]].
  - split; [repeat split; assumption|].
    destruct Hce as [H|[Hio Hemit]]; [left; exact H | right; auto].
  - split; [repeat split; assumption|].
    destruct Hce as [H|[Hio Hemit]]; [left; exact H | right; auto].
  - split; [repeat split; assumption|].
    destruct Hle as [H|[Hio Hemit]]; [left; exact H | right; auto].
  - split; [repeat split | left; reflexivity].
Qed.

(** C8. [checkAndAlertStockLevel] completes normally in every world, for
    every [productId].  It emits an alert only if the lookup has answered
    with a product and the socket has worked: a failed or empty lookup,
    a missing socket server and a failed emit all end in no alert. *)
Theorem checkAndAlertStockLevel_never_throws productId w :
  let run := stockAlertService.checkAndAlertStockLevel productId w in
  fst run = Ok tt /\
  (emitted (snd run) = emitted w \/
   (db_up w /\ io w = true /\ emit_up w /\
    exists p, product_of productId w = Some p)).
Proof.
  split.
  - apply try_catch_log_total.
  - apply checkAndAlertStockLevel_frame.
Qed.

(** The database is down: the lookup throws, the call completes, nothing
    is emitted. *)
Example checkAndAlertStockLevel_database_down :
  let w := with_outages [true] (world_of [widget 1 0 20] [] 1) in
  let run := stockAlertService.checkAndAlertStockLevel 1 w in
  fst run = Ok tt /\ emitted (snd run) = [] /\
  console (snd run)
  = ["[StockAlert] Error checking stock for product 1: Database connection failed"].
Proof. repeat split. Qed.

(** The emit throws: the call completes, nothing is emitted. *)
Example checkAndAlertStockLevel_emit_fails :
  let w := set_emit_faults [true] (world_of [widget 1 0 20] [] 1) in
  let run := stockAlertService.checkAndAlertStockLevel 1 w in
  fst run = Ok tt /\ emitted (snd run) = [].
Proof. repeat split. Qed.

(* ------------------------------------------------------------------ *)
(** ** The convenience wrapper of the alert service *)

Lemma product_of_exists id w p :
  product_of id w = Some p ->
  existsb (fun p => p_id p =? id) (products w) = true.
Proof.
  intros H. apply find_some in H. apply existsb_exists. exists p. exact H.
Qed.

(** [create] never touches the products; it leaves the ledger alone or
    appends the row; it appends the row when the database gives a handle
    and the product is there. *)
Lemma movement_create_frame data w :
  let w2 := snd (stockMovementRepository.create data w) in
  products w2 = products w /\
  notifications w2 = notifications w /\
  (stock_movements w2 = stock_movements w \/
   stock_movements w2 = stock_movements (insert_row data w)) /\
  (db_up w ->
   (exists p, product_of (i_productId data) w = Some p) ->
   stock_movements w2 = stock_movements (insert_row data w)).
Proof.
  cbv zeta. split; [|split; [|split]].
  - apply (wp_movement_create data (fun _ w2 => products w2 = products w));
      intros; match goal with H : db_only _ _ |- _ => destruct H as [l ->] end;
      reflexivity.
  - apply (wp_movement_create data
             (fun _ w2 => notifications w2 = notifications w));
      intros; match goal with H : db_only _ _ |- _ => destruct H as [l ->] end;
      reflexivity.
  - apply (wp_movement_create data
             (fun _ w2 =>
                stock_movements w2 = stock_movements w \/
                stock_movements w2 = stock_movements (insert_row data w)));
      intros; match goal with H : db_only _ _ |- _ => destruct H as [l ->] end;
      [left | right | right]; reflexivity.
  - intros Hup [p Hp]. apply product_of_exists in Hp.
    unfold stockMovementRepository.create, bind.
    rewrite (getDb_up w Hup). cbn [negb].
    unfold stockMovementRepository.db_insert at 1.
    cbn [products set_db_outages]. rewrite Hp.
    match goal with
    | |- context [stockMovementRepository.findById ?id ?W] =>
        pose proof (wp_movement_findById id (fun _ w' => db_only W w') W
                      ltac:(auto) ltac:(auto)) as H;
        unfold wp in H;
        destruct (stockMovementRepository.findById id W) as [[[c|]|e] w3]
    end; cbn [fst snd] in *; destruct H as [l ->]; reflexivity.
Qed.

(** A relation between worlds that holds across every continuation holds
    from the end of the first call to the end of the sequence. *)
Lemma bind_world_frame {A B} (m : M A) (k : A -> M B)
  (R : World -> World -> Prop) w :
  (forall a w1, R w1 (snd (k a w1))) ->
  (forall w1, R w1 w1) ->
  R (snd (m w)) (snd (bind m k w)).
Proof. unfold bind. destruct (m w) as [[a|e] w1]; cbn [snd]; auto. Qed.

(** What follows the insert in [recordMovementAndAlert] keeps the
    tables. *)
Lemma recordMovementAndAlert_rest_frame productId t q reason w :
  tables_kept w
    (snd ((product <- productRepository.findById productId ;;
           match product with
           | Some product =>
               websocketService.broadcastStockMovement productId
                 (p_name product) t q reason ;;;
               stockAlertService.checkAndAlertStockLevel productId
           | None => ret tt
           end) w)).
Proof.
  unfold bind at 1.
  destruct (product_findById_cases productId w) as [[_ ->]|[e ->]];
    [|repeat split].
  set (w1 := set_db_outages (tl (db_outages w)) w).
  destruct (product_of productId w) as [p|]; [|repeat split].
  unfold bind.
  pose proof (broadcastStockMovement_frame productId (p_name p) t q reason w1)
    as [Hb _].
  destruct (websocketService.broadcastStockMovement _ _ _ _ _ w1)
    as [[[]|e] w2]; cbn [snd] in *.
  - pose proof (checkAndAlertStockLevel_frame productId w2) as [Hc _].
    apply (tables_kept_trans _ w1); [repeat split|].
    apply (tables_kept_trans _ w2); assumption.
  - apply (tables_kept_trans _ w1); [repeat split | assumption].
Qed.

(** C9. [recordMovementAndAlert] completes normally in every world and
    leaves every product row as it was, the quantity included.  It checks
    neither the quantity nor the resulting stock: whenever the database
    gives a handle and the product is there, the row is appended to the
    ledger with the quantity as given. *)
Theorem recordMovementAndAlert_leaves_products productId t q reason w :
  let run := stockAlertService.recordMovementAndAlert productId t q reason w in
  let row := mkInsertStockMovement productId t q reason in
  fst run = Ok tt /\
  products (snd run) = products w /\
  (stock_movements (snd run) = stock_movements w \/
   stock_movements (snd run)
   = (stock_movements w ++ [stockMovementRepository.new_row row w])%list) /\
  (db_up w ->
   (exists p, product_of productId w = Some p) ->
   stock_movements (snd run)
   = (stock_movements w ++ [stockMovementRepository.new_row row w])%list).
Proof.
  cbv zeta. split; [apply try_catch_log_total|].
  unfold stockAlertService.recordMovementAndAlert.
  match goal with
  | |- context [try_catch ?body (fun e => console_log (@?msg e))] =>
      destruct (try_catch_log_world body msg w) as [lines ->]
  end.
  cbn [products stock_movements set_console].
  set (row := mkInsertStockMovement productId t q reason).
  pose proof (movement_create_frame row w) as (Hp & _ & Hm & Hup).
  match goal with
  | |- context [snd (bind ?m ?k w)] =>
      pose proof (bind_world_frame m k tables_kept w
                    (fun _ w1 =>
                       recordMovementAndAlert_rest_frame productId t q reason
                         w1)
                    tables_kept_refl) as (Hp' & Hm' & _);
      rewrite Hp', Hm'
  end.
  auto.
Qed.

(** A movement of -7 units on a product that has 10: the row is appended
    as given, the product keeps its 10 units. *)
Lemma recordMovementAndAlert_leaves_products_witness :
  let w := world_of [widget 1 10 20] [] 1 in
  let run := stockAlertService.recordMovementAndAlert 1 sale (-7) None w in
  fst run = Ok tt /\
  products (snd run) = [widget 1 10 20] /\
  stock_movements (snd run) = [mkStockMovement 1 1 sale (-7) None 100].
Proof.
  intros w run.
  destruct (recordMovementAndAlert_leaves_products 1 sale (-7) None w)
    as (Hok & Hproducts & _ & Happended).
  split; [exact Hok|]. split; [exact Hproducts|].
  apply Happended; [reflexivity | exists (widget 1 10 20); reflexivity].
Defined.

(** The product is not there: the foreign key of the ledger refuses the
    row, and the error is swallowed. *)
Example recordMovementAndAlert_unknown_product :
  let w := world_of [widget 1 10 20] [] 1 in
  let run := stockAlertService.recordMovementAndAlert 9 sale 3 None w in
  fst run = Ok tt /\ products (snd run) = products w /\
  stock_movements (snd run) = [].
Proof. repeat split. Qed.

(* ------------------------------------------------------------------ *)
(** ** The notification store *)

Lemma flag_kept_refl l : Forall2 flag_kept_or_set l l.
Proof. induction l; constructor; [left; reflexivity | assumption]. Qed.

Lemma flag_kept_or_set_map (mark : Notification -> bool) l :
  Forall2 flag_kept_or_set l
    (map (fun n => if mark n then notificationRepository.set_read_true n
                   else n) l).
Proof.
  induction l as [|n l IH]; cbn [map]; constructor; [|exact IH].
  destruct (mark n); [right | left]; reflexivity.
Qed.

Lemma read_mono_same l : read_mono l l.
Proof.
  apply (rm_grows l l l []);
    [symmetry; apply app_nil_r | apply flag_kept_refl | constructor].
Qed.

Lemma read_mono_marked (mark : Notification -> bool) l :
  read_mono l
    (map (fun n => if mark n then notificationRepository.set_read_true n
                   else n) l).
Proof.
  eapply (rm_grows _ _ _ []);
    [symmetry; apply app_nil_r | apply flag_kept_or_set_map | constructor].
Qed.

Lemma read_mono_created l n :
  n_read n = read_false -> read_mono l (l ++ [n])%list.
Proof.
  intros H. apply (rm_grows _ _ l [n]);
    [reflexivity | apply flag_kept_refl | repeat constructor; exact H].
Qed.

Lemma read_mono_deleted (keep : Notification -> bool) l :
  read_mono l (filter keep l).
Proof. apply (rm_shrinks _ _ keep). reflexivity. Qed.

#[local] Hint Resolve read_mono_same read_mono_marked read_mono_created
  read_mono_deleted : world.

(** The repository creates an unread row whenever it is not asked for a
    read one. *)
Lemma wp_notification_create data w :
  in_read data <> Some read_true ->
  wp (notificationRepository.create data)
    (fun _ w' => read_mono (notifications w) (notifications w')) w.
Proof.
  intros Hread. unfold notificationRepository.create.
  assert (Hrow : forall w0,
             n_read (notificationRepository.new_row data w0) = read_false).
  { intros w0. cbn. destruct (in_read data) as [[]|]; congruence. }
  wp_step. wp_step; [|wp_step; apply read_mono_same].
  wp_step. unfold notificationRepository.db_insert. apply wp_prim.
  destruct (notificationRepository.foreign_keys data _); cbn [fst snd];
    [|apply read_mono_same].
  repeat wp_step;
    cbn [notifications set_notifications set_db_outages];
    auto with world.
Qed.

(** What the two marking calls store, with a database handle. *)
Lemma markAsRead_table id w :
  db_up w ->
  notifications (snd (notificationService.run
                        (notificationService.MarkAsRead id) w))
  = map (fun n => if n_id n =? id
                  then notificationRepository.set_read_true n else n)
      (notifications w).
Proof.
  intros Hup. cbn [notificationService.run].
  unfold notificationService.markAsRead, notificationRepository.markAsRead,
    bind.
  rewrite (getDb_up w Hup). reflexivity.
Qed.

Lemma markAllAsRead_table u w :
  db_up w ->
  notifications (snd (notificationService.run
                        (notificationService.MarkAllAsRead u) w))
  = map (fun n => if (n_userId n =? u)
                     && ReadFlag_eqb (n_read n) read_false
                  then notificationRepository.set_read_true n else n)
      (notifications w).
Proof.
  intros Hup. cbn [notificationService.run].
  unfold notificationService.markAllAsRead,
    notificationRepository.markAllAsRead, bind.
  rewrite (getDb_up w Hup). reflexivity.
Qed.

(** C10. Every call of the notification service leaves the table in
    [read_mono] with the table before it: a row that is created is
    unread, a stored row is kept as it was or gets the flag ["true"], and
    no call sets the flag of a stored row back to ["false"].  With a
    database handle, after [markAsRead id] every row with that
    identifier is read, and after [markAllAsRead u] every row of that
    user is read. *)
Theorem notification_read_monotone (c : notificationService.Call) w :
  let w' := snd (notificationService.run c w) in
  read_mono (notifications w) (notifications w')
  /\ (forall id, c = notificationService.MarkAsRead id -> db_up w ->
      forall n, In n (notifications w') -> n_id n = id ->
                n_read n = read_true)
  /\ (forall u, c = notificationService.MarkAllAsRead u -> db_up w ->
      forall n, In n (notifications w') -> n_userId n = u ->
                n_read n = read_true).
Proof.
  cbv zeta. split; [|split].
  - change (wp (notificationService.run c)
              (fun _ w' => read_mono (notifications w) (notifications w'))
              w).
    destruct c; cbn [notificationService.run];
      unfold notificationService.ignore,
        notificationService.createLowStockNotification,
        notificationService.createCriticalStockNotification,
        notificationService.createSupplierAlertNotification,
        notificationService.createSystemNotification,
        notificationService.getUnreadNotifications,
        notificationService.getRecentNotifications,
        notificationService.markAsRead,
        notificationService.markAllAsRead,
        notificationService.deleteNotification,
        notificationService.getUnreadCount,
        notificationService.notifyAdminsAboutCriticalEvent,
        notificationRepository.getUnreadByUserId,
        notificationRepository.getRecentByUserId,
        notificationRepository.markAsRead,
        notificationRepository.markAllAsRead,
        notificationRepository.delete,
        notificationRepository.getUnreadCount.
    1-4: apply wp_bind;
         eapply wp_mono; [apply wp_notification_create; discriminate|];
         intros [a|e] w' H; [wp_step|]; exact H.
    all: repeat wp_step;
         cbn [notifications set_notifications set_db_outages set_console];
         auto with world.
  - intros id -> Hup n Hin Hid. rewrite (markAsRead_table id w Hup) in Hin.
    apply in_map_iff in Hin. destruct Hin as [m [Hm _]]. subst n.
    destruct (Z.eqb_spec (n_id m) id) as [E|E]; [reflexivity|].
    contradiction.
  - intros u -> Hup n Hin Hu. rewrite (markAllAsRead_table u w Hup) in Hin.
    apply in_map_iff in Hin. destruct Hin as [m [Hm _]]. subst n.
    destruct (Z.eqb_spec (n_userId m) u) as [E|E];
      cbn [andb] in *; [|contradiction].
    destruct (n_read m) eqn:R; cbn [ReadFlag_eqb]; [exact R | reflexivity].
Qed.

(** An unread row and a read row: [markAsRead 1] stores the first with
    the flag ["true"] and leaves the second as it was. *)
Lemma notification_read_monotone_witness :
  let unread :=
    mkNotification 1 1 system "Title" "Message" None None read_false 100 in
  let seen :=
    mkNotification 2 1 system "Title" "Message" None None read_true 100 in
  let w := set_notifications [unread; seen] 3 (world_of [] [] 1) in
  let w' :=
    snd (notificationService.run (notificationService.MarkAsRead 1) w) in
  db_up w /\
  notifications w'
  = [mkNotification 1 1 system "Title" "Message" None None read_true 100;
     seen] /\
  read_mono (notifications w) (notifications w') /\
  (forall n, In n (notifications w') -> n_id n = 1 -> n_read n = read_true).
Proof.
  intros unread seen w w'.
  split; [reflexivity|]. split; [reflexivity|]. split.
  - exact (proj1 (notification_read_monotone
                    (notificationService.MarkAsRead 1) w)).
  - exact (proj1 (proj2 (notification_read_monotone
                           (notificationService.MarkAsRead 1) w))
             1 eq_refl eq_refl).
Defined.


(* ------------------------------------------------------------------ *)
(** ** More on the movement engine *)

Lemma getDb_calm w : db_outages w = [] -> getDb w = (Ok true, w).
Proof. unfold getDb. intros ->. reflexivity. Qed.

Lemma product_findById_calm id w :
  db_outages w = [] ->
  productRepository.findById id w = (Ok (product_of id w), w).
Proof.
  intros H. unfold productRepository.findById, bind.
  rewrite (getDb_calm w H). reflexivity.
Qed.

Lemma movement_findById_calm id w :
  db_outages w = [] ->
  stockMovementRepository.findById id w
  = (Ok (stockMovementRepository.select_by_id id (stock_movements w)), w).
Proof.
  intros H. unfold stockMovementRepository.findById, bind.
  rewrite (getDb_calm w H). reflexivity.
Qed.

(** The outcomes of [recordMovement], with what is known in each: nothing
    is changed; the row is inserted and the call has failed; the row is
    inserted and the quantity updated, and the call has failed or returns
    the movement whose [id] is the identifier of the product. *)
Lemma wp_recordMovement data Q w :
  (forall e w', db_only w w' -> Q (Throw e) w') ->
  (forall p e w',
     product_of (stockMovementService.d_productId data) w = Some p ->
     0 < stockMovementService.d_quantity data ->
     0 <= newQuantity_of data p ->
     db_only (insert_row (ledger_entry data p) w) w' ->
     Q (Throw e) w') ->
  (forall p e w',
     product_of (stockMovementService.d_productId data) w = Some p ->
     0 < stockMovementService.d_quantity data ->
     0 <= newQuantity_of data p ->
     db_only (moved data p w) w' ->
     Q (Throw e) w') ->
  (forall p movement w',
     product_of (stockMovementService.d_productId data) w = Some p ->
     0 < stockMovementService.d_quantity data ->
     0 <= newQuantity_of data p ->
     db_only (moved data p w) w' ->
     stockMovementRepository.select_by_id
       (stockMovementService.d_productId data)
       (stock_movements (insert_row (ledger_entry data p) w))
     = Some movement ->
     Q (Ok movement) w') ->
  wp (stockMovementService.recordMovement data) Q w.
Proof.
  intros HNone HRow HBoth HOk.
  unfold stockMovementService.recordMovement.
  apply wp_bind, wp_product_findById; [|intros; apply HNone; assumption].
  intros w1 H1.
  destruct (product_of _ w) as [p|] eqn:Hp; [|wp_step; apply HNone; exact H1].
  destruct (Z.leb_spec (stockMovementService.d_quantity data) 0) as [|Hq];
    [wp_step; apply HNone; exact H1|].
  destruct (negb _); [wp_step; apply HNone; exact H1|].
  fold (Spec.resultingQuantity (p_quantity p)
          (stockMovementService.d_movementType data)
          (stockMovementService.d_quantity data)).
  fold (newQuantity_of data p).
  destruct (Z.ltb_spec (newQuantity_of data p) 0) as [|Hn];
    [wp_step; apply HNone; exact H1|].
  apply wp_bind, wp_movement_create.
  - intros w2 e H2. apply HNone. eauto with world.
  - intros w2 e H2. apply (HRow p); try assumption; try reflexivity.
    exact (db_only_insert_row _ _ _ _ H1 H2).
  - intros w2 created H2 Hcreated.
    pose proof (db_only_insert_row _ _ _ _ H1 H2) as H2'.
    apply wp_bind, wp_product_update_quantity.
    + intros w3 e H3. apply (HRow p); try assumption; try reflexivity. eauto with world.
    + intros w3 e H3. apply (HBoth p); try assumption; try reflexivity.
      exact (db_only_update_rows _ _ _ _ _ H2' H3).
    + intros w3 updated H3 _. wp_step. apply (HOk p); try assumption; try reflexivity.
      * exact (db_only_update_rows _ _ _ _ _ H2' H3).
      * destruct H1 as [l1 ->]. exact Hcreated.
Qed.

Lemma select_by_id_map id (f : Product -> Product) rows :
  (forall p, p_id (f p) = p_id p) ->
  productRepository.select_by_id id (map f rows)
  = option_map f (productRepository.select_by_id id rows).
Proof.
  intros Hf. unfold productRepository.select_by_id.
  induction rows as [|p rows IH]; [reflexivity|].
  cbn [map find]. rewrite Hf. destruct (p_id p =? id); [reflexivity | exact IH].
Qed.

Lemma apply_set_same_but_quantity q t p :
  same_but_quantity p
    (productRepository.apply_set (stockMovementService.quantity_only q) t p).
Proof.
  unfold productRepository.apply_set. cbv zeta.
  destruct (productRepository.Product_eqb _ p); repeat split.
Qed.

Lemma same_but_quantity_refl p : same_but_quantity p p.
Proof. repeat split. Qed.

(** What a lookup sees after the insert and the update. *)
Lemma product_of_moved data p w w' id :
  db_only (moved data p w) w' ->
  product_of id w'
  = option_map
      (fun row =>
         if p_id row =? stockMovementService.d_productId data
         then productRepository.apply_set
                (stockMovementService.quantity_only (newQuantity_of data p))
                (clock w) row
         else row)
      (product_of id w).
Proof.
  intros [l ->]. unfold product_of, moved, update_rows.
  cbn [products set_products set_db_outages insert_row set_stock_movements
         clock].
  apply select_by_id_map. intros row.
  destruct (p_id row =? _); [apply apply_set_id | reflexivity].
Qed.

(** X1. A movement on a product that is not there is refused with the
    error "Product with ID n not found", whatever the quantity, and
    nothing is written. *)
Theorem recordMovement_product_not_found data w :
  db_up w ->
  product_of (stockMovementService.d_productId data) w = None ->
  exists w',
    stockMovementService.recordMovement data w
    = (Throw (mkError ("Product with ID "
                       ++ showZ (stockMovementService.d_productId data)
                       ++ " not found")), w') /\
    db_only w w'.
Proof.
  intros Hup Hp. eexists. split; [|apply db_only_set].
  unfold stockMovementService.recordMovement, bind.
  rewrite (product_findById_up _ w Hup), Hp. reflexivity.
Qed.

Lemma recordMovement_product_not_found_witness :
  exists w',
    stockMovementService.recordMovement
      (stockMovementService.mkInput 7 sale (-3) None)
      (world_of [widget 1 10 20] [] 1)
    = (Throw (mkError "Product with ID 7 not found"), w') /\
    db_only (world_of [widget 1 10 20] [] 1) w'.
Proof.
  apply (recordMovement_product_not_found
           (stockMovementService.mkInput 7 sale (-3) None)
           (world_of [widget 1 10 20] [] 1));
    reflexivity.
Defined.

(** X2. A movement of a quantity that is zero or negative on a product
    that is there is refused with the error "Movement quantity must be
    greater than 0", whatever the movement type and the stock, and
    nothing is written. *)
Theorem recordMovement_quantity_not_positive data w p :
  db_up w ->
  product_of (stockMovementService.d_productId data) w = Some p ->
  stockMovementService.d_quantity data <= 0 ->
  exists w',
    stockMovementService.recordMovement data w
    = (Throw (mkError "Movement quantity must be greater than 0"), w') /\
    db_only w w'.
Proof.
  intros Hup Hp Hq. eexists. split; [|apply db_only_set].
  unfold stockMovementService.recordMovement, bind.
  rewrite (product_findById_up _ w Hup), Hp.
  destruct (Z.leb_spec (stockMovementService.d_quantity data) 0);
    [reflexivity | lia].
Qed.

Lemma recordMovement_quantity_not_positive_witness :
  exists w',
    stockMovementService.recordMovement
      (stockMovementService.mkInput 1 purchase 0 None)
      (world_of [widget 1 10 20] [] 1)
    = (Throw (mkError "Movement quantity must be greater than 0"), w') /\
    db_only (world_of [widget 1 10 20] [] 1) w'.
Proof.
  apply (recordMovement_quantity_not_positive
           (stockMovementService.mkInput 1 purchase 0 None)
           (world_of [widget 1 10 20] [] 1) (widget 1 10 20));
    [reflexivity | reflexivity | discriminate].
Defined.

Lemma recordMovement_keeps_nonnegative data w :
  Forall (fun p => 0 <= p_quantity p) (products w) ->
  Forall (fun p => 0 <= p_quantity p)
    (products (snd (stockMovementService.recordMovement data w))).
Proof.
  intros H.
  apply (wp_recordMovement data
           (fun _ w' => Forall (fun p => 0 <= p_quantity p) (products w')));
    intros;
    match goal with Hd : db_only _ _ |- _ => destruct Hd as [l ->] end;
    try exact H.
  all: unfold moved, update_rows;
    cbn [products set_products set_db_outages insert_row
           set_stock_movements];
    apply Forall_map; eapply Forall_impl; [|exact H];
    intros row Hrow; cbv beta;
    destruct (p_id row =? _); [rewrite apply_set_quantity|]; assumption.
Qed.

(** X3. No series of requests to [recordMovement], failed ones included,
    makes a quantity negative: if every product has a quantity of 0 or
    more before, every product has one after. *)
Theorem recordMovements_keep_nonnegative requests w :
  Forall (fun p => 0 <= p_quantity p) (products w) ->
  Forall (fun p => 0 <= p_quantity p)
    (products (recordMovements requests w)).
Proof.
  revert w. induction requests as [|data rest IH]; intros w H; [exact H|].
  cbn [recordMovements]. apply IH, recordMovement_keeps_nonnegative, H.
Qed.

(** A sale of 4, a sale of 9 that is refused, and a damage of 6, on a
    product that has 10 units: 0 units are left. *)
Lemma recordMovements_keep_nonnegative_witness :
  let requests :=
    [stockMovementService.mkInput 1 sale 4 None;
     stockMovementService.mkInput 1 sale 9 None;
     stockMovementService.mkInput 1 damage 6 None] in
  let w := world_of [widget 1 10 20] [] 1 in
  Forall (fun p => 0 <= p_quantity p) (products w) /\
  Forall (fun p => 0 <= p_quantity p)
    (products (recordMovements requests w)) /\
  option_map p_quantity (product_of 1 (recordMovements requests w)) = Some 0.
Proof.
  intros requests w.
  assert (H : Forall (fun p => 0 <= p_quantity p) (products w))
    by (repeat constructor; discriminate).
  split; [exact H|]. split; [|reflexivity].
  exact (recordMovements_keep_nonnegative requests w H).
Defined.

Lemma Forall2_map_self {A} (R : A -> A -> Prop) (f : A -> A) l :
  (forall x, R x (f x)) -> Forall2 R l (map f l).
Proof. intros H. induction l; cbn [map]; constructor; auto. Qed.

Lemma Forall2_same {A} (R : A -> A -> Prop) l :
  (forall x, R x x) -> Forall2 R l l.
Proof. intros H. induction l; constructor; auto. Qed.

(** The row an update of the quantity of product [pid] stores for [row]
    is [row] but for the quantity and the date of the last update, and is
    [row] itself when [row] is not the product [pid]. *)
Lemma kept_but_quantity_moved pid q t row :
  same_but_quantity row
    (if p_id row =? pid
     then productRepository.apply_set
            (stockMovementService.quantity_only q) t row
     else row)
  /\ (p_id row <> pid ->
      (if p_id row =? pid
       then productRepository.apply_set
              (stockMovementService.quantity_only q) t row
       else row) = row).
Proof.
  destruct (Z.eqb_spec (p_id row) pid) as [E|E].
  - split; [apply apply_set_same_but_quantity | contradiction].
  - split; [apply same_but_quantity_refl | reflexivity].
Qed.

(** X4. Whatever its outcome, [recordMovement] keeps every product row
    in its place and changes no product but its own, and of its own
    product nothing but the quantity and the date of the last update:
    name, SKU, category, price and threshold stay.  A product found
    before the call is found after it, and a product found after the
    call was there before it. *)
Theorem recordMovement_touches_only_quantity data w :
  let w' := snd (stockMovementService.recordMovement data w) in
  Forall2
    (fun p p' =>
       same_but_quantity p p' /\
       (p_id p <> stockMovementService.d_productId data -> p' = p))
    (products w) (products w')
  /\ (forall id p,
        product_of id w = Some p ->
        exists p',
          product_of id w' = Some p' /\
          same_but_quantity p p' /\
          (id <> stockMovementService.d_productId data -> p' = p))
  /\ (forall id p',
        product_of id w' = Some p' ->
        exists p,
          product_of id w = Some p /\
          same_but_quantity p p' /\
          (id <> stockMovementService.d_productId data -> p' = p)).
Proof.
  cbv zeta.
  apply (wp_recordMovement data
           (fun _ w' =>
              Forall2
                (fun p p' =>
                   same_but_quantity p p' /\
                   (p_id p <> stockMovementService.d_productId data ->
                    p' = p))
                (products w) (products w')
              /\ (forall id p,
                    product_of id w = Some p ->
                    exists p',
                      product_of id w' = Some p' /\
                      same_but_quantity p p' /\
                      (id <> stockMovementService.d_productId data ->
                       p' = p))
              /\ (forall id p',
                    product_of id w' = Some p' ->
                    exists p,
                      product_of id w = Some p /\
                      same_but_quantity p p' /\
                      (id <> stockMovementService.d_productId data ->
                       p' = p)))).
  1-2: intros; match goal with Hd : db_only _ _ |- _ =>
         destruct Hd as [l ->] end;
       (split; [|split]);
       [ cbn [products set_db_outages insert_row set_stock_movements];
         apply Forall2_same; intros row;
         split; [apply same_but_quantity_refl | reflexivity]
       | intros id row Hrow; exists row;
         split; [exact Hrow|];
         split; [apply same_but_quantity_refl | reflexivity]
       | intros id row Hrow; exists row;
         split; [exact Hrow|];
         split; [apply same_but_quantity_refl | reflexivity] ].
  1: intros p ? w' Hp Hq Hn Hd.
  2: intros p ? w' Hp Hq Hn Hd _.
  all: split; [|split].
  1,4: destruct Hd as [l ->]; unfold moved, update_rows;
       cbn [products set_products set_db_outages insert_row
              set_stock_movements clock];
       apply Forall2_map_self; intros row; apply kept_but_quantity_moved.
  1,3: intros id row Hrow; rewrite (product_of_moved _ _ _ _ id Hd), Hrow;
       cbn [option_map]; eexists; split; [reflexivity|];
       pose proof (product_select_by_id_id _ _ _ Hrow) as Hid;
       destruct (kept_but_quantity_moved
                   (stockMovementService.d_productId data)
                   (newQuantity_of data p) (clock w) row) as [Hs Hk];
       split; [exact Hs|]; intros Hne; apply Hk; congruence.
  all: intros id p' Hlook;
       rewrite (product_of_moved _ _ _ _ id Hd) in Hlook;
       destruct (product_of id w) as [row|] eqn:Hrow; [|discriminate];
       cbn [option_map] in Hlook; injection Hlook as <-;
       exists row; (split; [reflexivity|]);
       pose proof (product_select_by_id_id _ _ _ Hrow) as Hid;
       destruct (kept_but_quantity_moved
                   (stockMovementService.d_productId data)
                   (newQuantity_of data p) (clock w) row) as [Hs Hk];
       split; [exact Hs|]; intros Hne; apply Hk; congruence.
Qed.

(** A sale of 4 on the first of two products: after the call the first
    product is found with 6 units and its threshold of 20, and the second
    product is found as it was. *)
Lemma recordMovement_touches_only_quantity_witness :
  let data := stockMovementService.mkInput 1 sale 4 None in
  let w := world_of [widget 1 10 20; widget 2 7 5] [] 1 in
  let w' := snd (stockMovementService.recordMovement data w) in
  product_of 1 w = Some (widget 1 10 20) /\
  product_of 2 w = Some (widget 2 7 5) /\
  option_map p_quantity (product_of 1 w') = Some 6 /\
  (exists p',
     product_of 1 w' = Some p' /\
     same_but_quantity (widget 1 10 20) p' /\
     (1 <> 1 -> p' = widget 1 10 20)) /\
  (exists p',
     product_of 2 w' = Some p' /\
     same_but_quantity (widget 2 7 5) p' /\
     (2 <> 1 -> p' = widget 2 7 5)).
Proof.
  intros data w w'.
  split; [reflexivity|]. split; [reflexivity|]. split; [reflexivity|].
  split.
  - exact (proj1 (proj2 (recordMovement_touches_only_quantity data w))
             1 (widget 1 10 20) eq_refl).
  - exact (proj1 (proj2 (recordMovement_touches_only_quantity data w))
             2 (widget 2 7 5) eq_refl).
Defined.

(** A call that returns a movement has inserted the row and updated the
    quantity. *)
Lemma recordMovement_success data w movement w' :
  stockMovementService.recordMovement data w = (Ok movement, w') ->
  exists p,
    product_of (stockMovementService.d_productId data) w = Some p /\
    0 < stockMovementService.d_quantity data /\
    0 <= newQuantity_of data p /\
    db_only (moved data p w) w' /\
    stockMovementRepository.select_by_id
      (stockMovementService.d_productId data)
      (stock_movements (insert_row (ledger_entry data p) w))
    = Some movement.
Proof.
  intros Hrun.
  refine (wp_run _
            (fun r w' =>
               match r with
               | Ok movement =>
                   exists p,
                   product_of (stockMovementService.d_productId data) w
                   = Some p /\
                   0 < stockMovementService.d_quantity data /\
                   0 <= newQuantity_of data p /\
                   db_only (moved data p w) w' /\
                   stockMovementRepository.select_by_id
                     (stockMovementService.d_productId data)
                     (stock_movements (insert_row (ledger_entry data p) w))
                   = Some movement
               | Throw _ => True
               end) _ _ _ Hrun _).
  apply wp_recordMovement; try (intros; exact I).
  intros p m w2 Hp Hq Hn Hd Hm. exists p. auto.
Qed.

Lemma ledger_entry_quantity data p :
  i_quantity (ledger_entry data p) = stockMovementService.d_quantity data.
Proof.
  unfold ledger_entry. cbn.
  destruct (stockMovementService.d_movementType data); reflexivity.
Qed.

Lemma stock_movements_moved data p w w' :
  db_only (moved data p w) w' ->
  stock_movements w'
  = (stock_movements w
     ++ [mkStockMovement (stock_movements_auto w)
           (stockMovementService.d_productId data)
           (stockMovementService.d_movementType data)
           (stockMovementService.d_quantity data)
           (option_map trim (stockMovementService.d_reason data))
           (clock w)])%list /\
  stock_movements_auto w' = stock_movements_auto w + 1.
Proof.
  intros [l ->]. split; [|reflexivity].
  cbn [stock_movements moved update_rows set_products set_db_outages
         insert_row set_stock_movements].
  unfold stockMovementRepository.new_row.
  rewrite ledger_entry_quantity. reflexivity.
Qed.

(** X5. A call that succeeds appends exactly one row to the ledger: its
    [id] is the auto-increment counter, its quantity is the quantity of
    the request for every movement type, its reason is the reason of the
    request without the white space around it, its date is the date of
    the call; and the counter moves by one. *)
Theorem recordMovement_appends_one_row data w movement w' :
  stockMovementService.recordMovement data w = (Ok movement, w') ->
  stock_movements w'
  = (stock_movements w
     ++ [mkStockMovement (stock_movements_auto w)
           (stockMovementService.d_productId data)
           (stockMovementService.d_movementType data)
           (stockMovementService.d_quantity data)
           (option_map trim (stockMovementService.d_reason data))
           (clock w)])%list /\
  stock_movements_auto w' = stock_movements_auto w + 1.
Proof.
  intros Hrun.
  destruct (recordMovement_success _ _ _ _ Hrun) as (p & _ & _ & _ & Hd & _).
  exact (stock_movements_moved _ _ _ _ Hd).
Qed.

(** An adjustment to 40 with a reason between blanks, and a sale with a
    reason between no-break spaces: the rows hold the bare reasons. *)
Lemma recordMovement_appends_one_row_witness :
  (let data :=
     stockMovementService.mkInput 1 adjustment 40 (Some "  recount ") in
   let w := world_of [widget 1 10 20] [] 1 in
   exists movement w',
     stockMovementService.recordMovement data w = (Ok movement, w') /\
     stock_movements w'
     = [mkStockMovement 1 1 adjustment 40 (Some "recount") 100] /\
     stock_movements_auto w' = 2) /\
  (let data :=
     stockMovementService.mkInput 1 sale 4
       (Some (nbsp ++ "sold" ++ nbsp ++ " ")) in
   let w := world_of [widget 1 10 20] [] 1 in
   exists movement w',
     stockMovementService.recordMovement data w = (Ok movement, w') /\
     stock_movements w'
     = [mkStockMovement 1 1 sale 4 (Some "sold") 100] /\
     stock_movements_auto w' = 2).
Proof.
  split; intros data w; eexists; eexists;
    (split; [vm_compute; reflexivity|]);
    refine (recordMovement_appends_one_row data w _ _ _);
    vm_compute; reflexivity.
Defined.

Lemma movement_select_by_id_app id rows row :
  stockMovementRepository.select_by_id id rows = None ->
  m_id row <> id ->
  stockMovementRepository.select_by_id id (rows ++ [row]) = None.
Proof.
  unfold stockMovementRepository.select_by_id. intros Hnone Hrow.
  induction rows as [|m rows IH]; cbn [app find] in *.
  - destruct (Z.eqb_spec (m_id row) id); [contradiction | reflexivity].
  - destruct (m_id m =? id); [discriminate | exact (IH Hnone)].
Qed.

(** X6. The read-back of [create] looks for the movement whose [id] is
    the identifier of the product.  When no movement has that [id] and
    the counter is not at it either, a valid request on a product that is
    there, with the database at work, fails with "Failed to create stock
    movement": the ledger row is inserted and the quantity is not
    updated. *)
Theorem recordMovement_read_back_fails data w p :
  db_outages w = [] ->
  product_of (stockMovementService.d_productId data) w = Some p ->
  0 < stockMovementService.d_quantity data ->
  0 <= newQuantity_of data p ->
  stockMovementRepository.select_by_id
    (stockMovementService.d_productId data) (stock_movements w) = None ->
  stock_movements_auto w <> stockMovementService.d_productId data ->
  stockMovementService.recordMovement data w
  = (Throw (mkError "Failed to create stock movement"),
     insert_row (ledger_entry data p) w) /\
  product_of (stockMovementService.d_productId data)
    (insert_row (ledger_entry data p) w) = Some p.
Proof.
  intros Hdb Hp Hq Hn Hnone Hauto. split; [|exact Hp].
  unfold stockMovementService.recordMovement, bind.
  rewrite (product_findById_calm _ w Hdb), Hp.
  destruct (Z.leb_spec (stockMovementService.d_quantity data) 0); [lia|].
  replace (stockMovementService.includes _ _) with true
    by (destruct (stockMovementService.d_movementType data); reflexivity).
  cbn [negb].
  fold (Spec.resultingQuantity (p_quantity p)
          (stockMovementService.d_movementType data)
          (stockMovementService.d_quantity data)).
  fold (newQuantity_of data p).
  destruct (Z.ltb_spec (newQuantity_of data p) 0); [lia|].
  unfold stockMovementRepository.create, bind.
  rewrite (getDb_calm w Hdb). cbn [negb].
  unfold stockMovementRepository.db_insert.
  match goal with
  | |- context [existsb ?f (products w)] =>
      replace (existsb f (products w)) with true
        by (symmetry; exact (product_of_exists _ _ _ Hp))
  end.
  rewrite movement_findById_calm by exact Hdb.
  cbn [stock_movements set_stock_movements i_productId].
  rewrite movement_select_by_id_app; [reflexivity | exact Hnone | exact Hauto].
Qed.

(** Scenario: the first movement of product 5. *)
Lemma recordMovement_read_back_fails_witness :
  let data := stockMovementService.mkInput 5 purchase 3 None in
  let w := world_of [widget 5 10 20] [] 1 in
  stockMovementService.recordMovement data w
  = (Throw (mkError "Failed to create stock movement"),
     insert_row (ledger_entry data (widget 5 10 20)) w) /\
  product_of 5 (insert_row (ledger_entry data (widget 5 10 20)) w)
  = Some (widget 5 10 20).
Proof.
  intros data w.
  apply (recordMovement_read_back_fails data w (widget 5 10 20));
    try reflexivity; discriminate.
Defined.

(* ------------------------------------------------------------------ *)
(** ** The derived queries of the ledger *)

(** The totals of a product after the insert of the row of a movement. *)
Lemma totals_moved data p w w' tin tout :
  db_only (moved data p w) w' ->
  answer (stockMovementService.getMovementTotals
            (stockMovementService.d_productId data)) w = Some (tin, tout) ->
  answer (stockMovementService.getMovementTotals
            (stockMovementService.d_productId data)) w'
  = Some (match stockMovementService.d_movementType data with
          | purchase | return_ =>
              (tin + stockMovementService.d_quantity data, tout)
          | sale | damage =>
              (tin, tout + stockMovementService.d_quantity data)
          | adjustment => (tin, tout)
          end).
Proof.
  intros Hd. destruct (stock_movements_moved _ _ _ _ Hd) as [Hledger _].
  unfold answer, db_restored, stockMovementService.getMovementTotals,
    stockMovementRepository.findByProductId, bind, getDb.
  cbn [db_outages set_db_outages negb fst snd ret stock_movements].
  rewrite Hledger, filter_app, fold_left_app.
  cbn [filter m_productId]. rewrite Z.eqb_refl. cbn [fold_left m_movementType
    m_quantity].
  intros Hbefore. injection Hbefore as Hbefore. rewrite Hbefore.
  cbn [fst snd].
  destruct (stockMovementService.d_movementType data); reflexivity.
Qed.

Lemma totals_moved_other data p w w' other :
  db_only (moved data p w) w' ->
  other <> stockMovementService.d_productId data ->
  answer (stockMovementService.getMovementTotals other) w'
  = answer (stockMovementService.getMovementTotals other) w.
Proof.
  intros Hd Hother. destruct (stock_movements_moved _ _ _ _ Hd) as [Hledger _].
  unfold answer, db_restored, stockMovementService.getMovementTotals,
    stockMovementRepository.findByProductId, bind, getDb.
  cbn [db_outages set_db_outages negb fst snd ret stock_movements].
  rewrite Hledger, filter_app. cbn [filter m_productId].
  destruct (Z.eqb_spec (stockMovementService.d_productId data) other);
    [congruence|].
  rewrite app_nil_r. reflexivity.
Qed.

(** X7. After a successful movement of quantity [q], [getMovementTotals]
    of the product reports [q] more inbound for a purchase or a return,
    [q] more outbound for a sale or a damage, and the same totals for an
    adjustment; the totals of every other product are as before. *)
Theorem getMovementTotals_after_movement data w movement w' tin tout :
  stockMovementService.recordMovement data w = (Ok movement, w') ->
  answer (stockMovementService.getMovementTotals
            (stockMovementService.d_productId data)) w = Some (tin, tout) ->
  answer (stockMovementService.getMovementTotals
            (stockMovementService.d_productId data)) w'
  = Some (match stockMovementService.d_movementType data with
          | purchase | return_ =>
              (tin + stockMovementService.d_quantity data, tout)
          | sale | damage =>
              (tin, tout + stockMovementService.d_quantity data)
          | adjustment => (tin, tout)
          end) /\
  forall other,
    other <> stockMovementService.d_productId data ->
    answer (stockMovementService.getMovementTotals other) w'
    = answer (stockMovementService.getMovementTotals other) w.
Proof.
  intros Hrun Hbefore.
  destruct (recordMovement_success _ _ _ _ Hrun) as (p & _ & _ & _ & Hd & _).
  split.
  - exact (totals_moved _ _ _ _ _ _ Hd Hbefore).
  - intros other Hother. exact (totals_moved_other _ _ _ _ _ Hd Hother).
Qed.

(** A return of 4 units after a purchase of 5 and a sale of 2. *)
Lemma getMovementTotals_after_movement_witness :
  let ledger :=
    [mkStockMovement 1 1 purchase 5 None 10;
     mkStockMovement 2 1 sale 2 None 20] in
  let w := world_of [widget 1 13 20] ledger 3 in
  let data := stockMovementService.mkInput 1 return_ 4 None in
  answer (stockMovementService.getMovementTotals 1) w = Some (5, 2) /\
  answer (stockMovementService.getMovementTotals 1)
    (snd (stockMovementService.recordMovement data w)) = Some (9, 2).
Proof.
  intros ledger w data. split; [reflexivity|].
  refine (proj1 (getMovementTotals_after_movement data w
                   (mkStockMovement 1 1 purchase 5 None 10) _ 5 2 _ _)).
  - vm_compute; reflexivity.
  - reflexivity.
Defined.

(** X8. A successful movement that is not an adjustment keeps the books
    of its product balanced: the quantity on hand less the inbound total
    plus the outbound total is the same before and after. *)
Theorem recordMovement_keeps_balance data w movement w' p p'
  tin tout tin' tout' :
  stockMovementService.d_movementType data <> adjustment ->
  stockMovementService.recordMovement data w = (Ok movement, w') ->
  product_of (stockMovementService.d_productId data) w = Some p ->
  product_of (stockMovementService.d_productId data) w' = Some p' ->
  answer (stockMovementService.getMovementTotals
            (stockMovementService.d_productId data)) w = Some (tin, tout) ->
  answer (stockMovementService.getMovementTotals
            (stockMovementService.d_productId data)) w'
  = Some (tin', tout') ->
  p_quantity p' - (tin' - tout') = p_quantity p - (tin - tout).
Proof.
  intros Htype Hrun Hp Hp' Hbefore Hafter.
  destruct (recordMovement_success _ _ _ _ Hrun)
    as (p0 & Hp0 & _ & _ & Hd & _).
  rewrite Hp in Hp0. injection Hp0 as <-.
  rewrite (totals_moved _ _ _ _ _ _ Hd Hbefore) in Hafter.
  rewrite (product_of_moved _ _ _ _ _ Hd), Hp in Hp'.
  cbn [option_map] in Hp'.
  rewrite (product_select_by_id_id _ _ _ Hp), Z.eqb_refl in Hp'.
  injection Hp' as <-. rewrite apply_set_quantity.
  unfold newQuantity_of, Spec.resultingQuantity.
  destruct (stockMovementService.d_movementType data);
    try contradiction; injection Hafter as <- <-; lia.
Qed.

(** 13 units on hand, 5 in and 2 out; a sale of 3 leaves 10 units, 5 in
    and 5 out. *)
Lemma recordMovement_keeps_balance_witness :
  let ledger :=
    [mkStockMovement 1 1 purchase 5 None 10;
     mkStockMovement 2 1 sale 2 None 20] in
  let w := world_of [widget 1 13 20] ledger 3 in
  let data := stockMovementService.mkInput 1 sale 3 None in
  let w' := snd (stockMovementService.recordMovement data w) in
  option_map p_quantity (product_of 1 w') = Some 10 /\
  answer (stockMovementService.getMovementTotals 1) w' = Some (5, 5) /\
  10 - (5 - 5) = 13 - (5 - 2).
Proof.
  intros ledger w data w'. split; [reflexivity|]. split; [reflexivity|].
  refine (recordMovement_keeps_balance data w
            (mkStockMovement 1 1 purchase 5 None 10) w'
            (widget 1 13 20)
            (mkProduct 1 "Widget" "W-1" None 1 10 "9.99" 20 0 100)
            5 2 5 5 _ _ _ _ _ _);
    try reflexivity; discriminate.
Defined.

Lemma summary_total_increment s t :
  summary_total (stockMovementRepository.increment s t) = summary_total s + 1.
Proof. unfold summary_total. destruct t; cbn; lia. Qed.

Lemma summary_total_fold (l : list StockMovement) s :
  summary_total
    (fold_left
       (fun summary m =>
          stockMovementRepository.increment summary (m_movementType m)) l s)
  = summary_total s + Z.of_nat (List.length l).
Proof.
  revert s. induction l as [|m l IH]; intros s.
  - cbn. lia.
  - cbn [fold_left List.length]. rewrite IH, summary_total_increment. lia.
Qed.

(** X9. The five counters of [getMovementsSummary] add up to the number
    of movements [getMovementsByProduct] lists for the product: every
    movement is counted once, under its type. *)
Theorem getMovementsSummary_counts_every_movement productId w :
  exists summary movements,
    answer (stockMovementService.getMovementsSummary productId) w
    = Some summary /\
    answer (stockMovementService.getMovementsByProduct productId) w
    = Some movements /\
    summary_total summary = Z.of_nat (List.length movements).
Proof.
  eexists. eexists. split; [reflexivity|]. split; [reflexivity|].
  rewrite summary_total_fold. reflexivity.
Qed.

(** X10. [getMovementsByDateRange] lists, in the order of the ledger, the
    movements whose date is between the two bounds, both included; when
    the end is before the start it lists nothing. *)
Theorem getMovementsByDateRange_bounds startDate endDate w movements :
  fst (stockMovementService.getMovementsByDateRange startDate endDate w)
  = Ok movements ->
  (forall m,
     In m movements <->
     In m (stock_movements w) /\
     startDate <= m_createdAt m <= endDate) /\
  (endDate < startDate -> movements = []).
Proof.
  intros Hrun.
  assert (H : wp (stockMovementService.getMovementsByDateRange startDate
                    endDate)
                (fun r _ =>
                   match r with
                   | Ok listed =>
                       listed
                       = filter (fun m => (startDate <=? m_createdAt m)
                                          && (m_createdAt m <=? endDate))
                           (stock_movements w)
                   | Throw _ => True
                   end) w).
  { unfold stockMovementService.getMovementsByDateRange,
      stockMovementRepository.findByDateRange,
      stockMovementRepository.findAll.
    repeat wp_step; cbn [stock_movements set_db_outages]; trivial. }
  unfold wp in H. rewrite Hrun in H.
  subst movements. split.
  - intros m. rewrite filter_In, andb_true_iff, !Z.leb_le. reflexivity.
  - intros Hinv. clear Hrun.
    induction (stock_movements w) as [|m l IH]; [reflexivity|].
    cbn [filter].
    destruct (Z.leb_spec startDate (m_createdAt m)),
      (Z.leb_spec (m_createdAt m) endDate); cbn [andb];
      first [exact IH | exfalso; lia].
Qed.

(** Three movements, at dates 10, 20 and 30; the range from 20 to 30. *)
Lemma getMovementsByDateRange_bounds_witness :
  let ledger :=
    [mkStockMovement 1 1 purchase 5 None 10;
     mkStockMovement 2 1 sale 2 None 20;
     mkStockMovement 3 1 sale 1 None 30] in
  let w := world_of [widget 1 12 20] ledger 4 in
  fst (stockMovementService.getMovementsByDateRange 20 30 w)
  = Ok [mkStockMovement 2 1 sale 2 None 20;
        mkStockMovement 3 1 sale 1 None 30] /\
  (In (mkStockMovement 2 1 sale 2 None 20)
      [mkStockMovement 2 1 sale 2 None 20;
       mkStockMovement 3 1 sale 1 None 30] <->
   In (mkStockMovement 2 1 sale 2 None 20) (stock_movements w) /\
   20 <= 20 <= 30).
Proof.
  intros ledger w. split; [reflexivity|].
  exact (proj1 (getMovementsByDateRange_bounds 20 30 w _ eq_refl)
           (mkStockMovement 2 1 sale 2 None 20)).
Defined.

(* ------------------------------------------------------------------ *)
(** ** The sweep of the alert service and the low stock list *)

Lemma check_each_frame rows w :
  tables_kept w (snd (stockAlertService.check_each rows w)).
Proof.
  revert w. induction rows as [|p rows IH]; intros w;
    [apply tables_kept_refl|].
  cbn [stockAlertService.check_each].
  apply (tables_kept_trans _
           (snd (stockAlertService.checkAndAlertStockLevel (p_id p) w))).
  - apply checkAndAlertStockLevel_frame.
  - apply (bind_world_frame _ _ tables_kept);
      [intros _ w1; apply IH | apply tables_kept_refl].
Qed.

(** X11. The sweep [checkAllProductsStockLevels] completes normally in
    every world, whatever fails on its way, and writes to no table:
    products, ledger and notifications are as before. *)
Theorem checkAllProductsStockLevels_never_throws w :
  let run := stockAlertService.checkAllProductsStockLevels w in
  fst run = Ok tt /\ tables_kept w (snd run).
Proof.
  cbv zeta. split; [apply try_catch_log_total|].
  unfold stockAlertService.checkAllProductsStockLevels.
  match goal with
  | |- context [try_catch ?body (fun e => console_log (@?msg e))] =>
      destruct (try_catch_log_world body msg w) as [lines ->]
  end.
  apply (tables_kept_trans _
           (snd (productRepository.findAll_unfiltered w))).
  - unfold productRepository.findAll_unfiltered, bind, getDb.
    destruct (db_outages w) as [|[] rest]; repeat split.
  - match goal with
    | |- tables_kept _ (set_console _ (snd (bind ?m ?k w))) =>
        pose proof (bind_world_frame m k tables_kept w) as H
    end.
    destruct H as (H1 & H2 & H3); [|apply tables_kept_refl|repeat split;
      assumption].
    intros rows w1.
    apply (tables_kept_trans _ (snd (stockAlertService.check_each rows w1)));
      [apply check_each_frame|].
    apply (bind_world_frame _ _ tables_kept);
      [intros _ w2; repeat split | apply tables_kept_refl].
Qed.

(** What one evaluation does in a world where nothing fails. *)
Lemma checkAndAlertStockLevel_calm productId w p :
  calm w -> io w = true ->
  product_of productId w = Some p ->
  let run := stockAlertService.checkAndAlertStockLevel productId w in
  fst run = Ok tt /\
  calm (snd run) /\ io (snd run) = true /\
  products (snd run) = products w /\ clock (snd run) = clock w /\
  emitted (snd run)
  = (emitted w
     ++ events_of_tier
          (Spec.evaluate (p_quantity p) (p_minStockLevel p)) p (clock w))%list.
Proof.
  intros [Hdb Hemit] Hio Hp.
  pose proof (product_select_by_id_id _ _ _ Hp) as Hid. subst productId.
  unfold stockAlertService.checkAndAlertStockLevel, try_catch, bind.
  rewrite (product_findById_calm _ w Hdb), Hp. cbv zeta.
  rewrite number_lt_fifth. unfold Spec.evaluate, calm.
  destruct (p_quantity p =? 0);
    [|destruct (5 * p_quantity p <? p_minStockLevel p);
      [|destruct (p_quantity p <? p_minStockLevel p)]];
    unfold websocketService.broadcastCriticalStockAlert,
      websocketService.broadcastLowStockAlert, bind,
      websocketService.io_ready, now, websocketService.io_emit;
    cbv beta; rewrite ?Hio; cbn [negb]; rewrite ?Hemit;
    cbn [fst snd ret console_log events_of_tier db_outages emit_faults io
           products clock emitted set_console set_emitted];
    repeat split; try assumption.
  symmetry. apply app_nil_r.
Qed.

Lemma check_each_calm rows w :
  calm w -> io w = true ->
  (forall p, In p rows -> product_of (p_id p) w = Some p) ->
  let run := stockAlertService.check_each rows w in
  fst run = Ok tt /\
  calm (snd run) /\ io (snd run) = true /\
  products (snd run) = products w /\ clock (snd run) = clock w /\
  emitted (snd run)
  = (emitted w
     ++ flat_map
          (fun p =>
             events_of_tier
               (Spec.evaluate (p_quantity p) (p_minStockLevel p)) p (clock w))
          rows)%list.
Proof.
  revert w. induction rows as [|p rows IH]; intros w Hcalm Hio Hrows.
  - cbn. repeat split; try assumption; try apply Hcalm.
    symmetry. apply app_nil_r.
  - cbn [stockAlertService.check_each flat_map]. unfold bind.
    destruct (checkAndAlertStockLevel_calm (p_id p) w p Hcalm Hio
                (Hrows p (or_introl eq_refl)))
      as (Hok & Hcalm1 & Hio1 & Hp1 & Hc1 & He1).
    destruct (stockAlertService.checkAndAlertStockLevel (p_id p) w)
      as [r w1]. cbn [fst snd] in *. subst r.
    destruct (IH w1 Hcalm1 Hio1) as (Hok2 & Hcalm2 & Hio2 & Hp2 & Hc2 & He2).
    { intros p0 Hin. unfold product_of. rewrite Hp1.
      apply Hrows. right. exact Hin. }
    cbv zeta in *. repeat split; try assumption; try apply Hcalm2;
      try congruence.
    rewrite He2, He1, Hc1, app_assoc. reflexivity.
Qed.

Lemma select_by_id_NoDup rows p :
  NoDup (map p_id rows) -> In p rows ->
  productRepository.select_by_id (p_id p) rows = Some p.
Proof.
  unfold productRepository.select_by_id.
  induction rows as [|row rows IH]; intros Hnd Hin; [contradiction|].
  cbn [map] in Hnd. inversion Hnd as [|? ? Hnotin Hnd']; subst.
  cbn [find]. destruct Hin as [->|Hin].
  - rewrite Z.eqb_refl. reflexivity.
  - destruct (Z.eqb_spec (p_id row) (p_id p)) as [E|_]; [|exact (IH Hnd' Hin)].
    exfalso. apply Hnotin. rewrite E. apply in_map. exact Hin.
Qed.

(** X12. When nothing fails and the identifiers of the products are
    distinct, the sweep emits, product after product in the order of the
    table, the alert of the tier of each product, and nothing else. *)
Theorem checkAllProductsStockLevels_emits w :
  calm w -> io w = true -> NoDup (map p_id (products w)) ->
  emitted (snd (stockAlertService.checkAllProductsStockLevels w))
  = (emitted w
     ++ flat_map
          (fun p =>
             events_of_tier
               (Spec.evaluate (p_quantity p) (p_minStockLevel p)) p (clock w))
          (products w))%list.
Proof.
  intros Hcalm Hio Hnd.
  unfold stockAlertService.checkAllProductsStockLevels.
  match goal with
  | |- context [try_catch ?body (fun e => console_log (@?msg e))] =>
      destruct (try_catch_log_world body msg w) as [lines ->]
  end.
  cbn [emitted set_console].
  unfold bind at 1. unfold productRepository.findAll_unfiltered, bind at 1.
  rewrite (getDb_calm w (proj1 Hcalm)). cbn [negb].
  destruct (check_each_calm (products w) w Hcalm Hio)
    as (Hok & _ & _ & _ & _ & He).
  { intros p Hin. apply select_by_id_NoDup; assumption. }
  unfold bind.
  destruct (stockAlertService.check_each (products w) w) as [r w1].
  cbn [fst snd] in *. subst r. cbn [snd console_log emitted set_console].
  exact He.
Qed.

(** A product out of stock, a product well stocked and a product under its
    threshold. *)
Lemma checkAllProductsStockLevels_emits_witness :
  let rows := [widget 1 0 20; widget 2 50 20; widget 3 15 20] in
  emitted
    (snd (stockAlertService.checkAllProductsStockLevels
            (world_of rows [] 1)))
  = [critical_event (widget 1 0 20) 100; low_event (widget 3 15 20) 100].
Proof.
  intros rows.
  refine (checkAllProductsStockLevels_emits (world_of rows [] 1) _ _ _).
  - split; reflexivity.
  - reflexivity.
  - repeat constructor; cbn; intuition discriminate.
Defined.

(** X13. [getLowStockProducts] lists the products whose quantity is at
    most the threshold.  Every product for which the evaluator emits an
    alert is on that list, when threshold and quantity are not negative;
    a product whose quantity is exactly its threshold, above 0, is on the
    list and gets no alert. *)
Theorem getLowStockProducts_and_alerts w listed p :
  fst (productService.getLowStockProducts w) = Ok listed ->
  In p (products w) ->
  0 <= p_minStockLevel p -> 0 <= p_quantity p ->
  (In p listed <-> p_quantity p <= p_minStockLevel p) /\
  (alerts_for p <> [] -> In p listed) /\
  (0 < p_quantity p -> p_quantity p = p_minStockLevel p ->
   In p listed /\ alerts_for p = []).
Proof.
  intros Hrun Hin Hmin Hq.
  assert (H : listed
              = filter (fun p => p_quantity p <=? p_minStockLevel p)
                  (products w)).
  { revert Hrun.
    unfold productService.getLowStockProducts,
      productRepository.findAll_lowStock, bind, getDb.
    destruct (db_outages w) as [|[] rest]; cbn [negb fst throw products
      set_db_outages]; intros H;
      first [discriminate H | injection H as <-; reflexivity]. }
  subst listed.
  assert (Hlisted : In p (filter (fun p => p_quantity p <=? p_minStockLevel p)
                            (products w))
                    <-> p_quantity p <= p_minStockLevel p).
  { rewrite filter_In, Z.leb_le. tauto. }
  split; [exact Hlisted|]. rewrite alerts_for_tier. unfold Spec.evaluate.
  split.
  - intros Halert. apply Hlisted.
    destruct (Z.eqb_spec (p_quantity p) 0); [lia|].
    destruct (Z.ltb_spec (5 * p_quantity p) (p_minStockLevel p)); [lia|].
    destruct (Z.ltb_spec (p_quantity p) (p_minStockLevel p)); [lia|].
    contradiction Halert. reflexivity.
  - intros Hpos Heq. split; [apply Hlisted; lia|].
    destruct (Z.eqb_spec (p_quantity p) 0); [lia|].
    destruct (Z.ltb_spec (5 * p_quantity p) (p_minStockLevel p)); [lia|].
    destruct (Z.ltb_spec (p_quantity p) (p_minStockLevel p)); [lia|].
    reflexivity.
Qed.

(** 20 units against a threshold of 20. *)
Lemma getLowStockProducts_and_alerts_witness :
  let p := widget 1 20 20 in
  let w := world_of [p; widget 2 50 20] [] 1 in
  fst (productService.getLowStockProducts w) = Ok [p] /\
  In p [p] /\ alerts_for p = [].
Proof.
  intros p w. split; [reflexivity|].
  refine (proj2 (proj2 (getLowStockProducts_and_alerts w [p] p
                          eq_refl _ _ _)) _ _);
    first [reflexivity | discriminate | left; reflexivity].
Defined.

(* ------------------------------------------------------------------ *)
(** ** More on the notification store *)

Lemma insert_desc_length n l :
  List.length (notificationRepository.insert_desc n l) = S (List.length l).
Proof.
  induction l as [|x l IH]; [reflexivity|].
  cbn [notificationRepository.insert_desc].
  destruct (n_createdAt x <? n_createdAt n); cbn [List.length];
    [reflexivity | rewrite IH; reflexivity].
Qed.

Lemma order_desc_length l :
  List.length (notificationRepository.order_desc l) = List.length l.
Proof.
  unfold notificationRepository.order_desc.
  induction l as [|x l IH]; [reflexivity|].
  cbn [fold_right List.length]. rewrite insert_desc_length, IH. reflexivity.
Qed.

Lemma insert_desc_In n l x :
  In x (notificationRepository.insert_desc n l) <-> x = n \/ In x l.
Proof.
  induction l as [|y l IH]; cbn [notificationRepository.insert_desc].
  - cbn. intuition.
  - destruct (n_createdAt y <? n_createdAt n); cbn [In] in *;
      [intuition | rewrite IH; intuition].
Qed.

Lemma order_desc_In l x :
  In x (notificationRepository.order_desc l) <-> In x l.
Proof.
  unfold notificationRepository.order_desc.
  induction l as [|y l IH]; [reflexivity|].
  cbn [fold_right]. rewrite insert_desc_In, IH. cbn. intuition.
Qed.

Lemma insert_desc_sorted n l :
  newest_first l -> newest_first (notificationRepository.insert_desc n l).
Proof.
  unfold newest_first.
  induction l as [|x l IH]; intros Hs; cbn [notificationRepository.insert_desc].
  - repeat constructor.
  - inversion Hs as [|? ? Hs' Hall]; subst.
    destruct (Z.ltb_spec (n_createdAt x) (n_createdAt n)).
    + constructor; [exact Hs|]. constructor; [lia|].
      eapply Forall_impl; [|exact Hall]. cbv beta. intros; lia.
    + constructor; [apply IH; exact Hs'|].
      apply Forall_forall. intros y Hy. apply insert_desc_In in Hy.
      destruct Hy as [->|Hy]; [lia|].
      rewrite Forall_forall in Hall. apply Hall, Hy.
Qed.

Lemma order_desc_sorted l :
  newest_first (notificationRepository.order_desc l).
Proof.
  unfold notificationRepository.order_desc.
  induction l as [|x l IH]; [constructor|].
  cbn [fold_right]. apply insert_desc_sorted, IH.
Qed.

Lemma firstn_sorted n l : newest_first l -> newest_first (firstn n l).
Proof.
  unfold newest_first. revert l.
  induction n as [|n IH]; intros l Hs; [constructor|].
  destruct l as [|x l]; [constructor|]. cbn [firstn].
  inversion Hs as [|? ? Hs' Hall]; subst.
  constructor; [apply IH, Hs'|].
  apply Forall_forall. intros y Hy. rewrite Forall_forall in Hall.
  apply Hall. revert Hy. clear. revert l.
  induction n as [|n IH]; intros l Hy; [contradiction|].
  destruct l as [|z l]; [contradiction|]. cbn [firstn In] in *.
  destruct Hy as [->|Hy]; [left; reflexivity | right; exact (IH _ Hy)].
Qed.

Lemma firstn_In {A} n (l : list A) x : In x (firstn n l) -> In x l.
Proof.
  revert l. induction n as [|n IH]; intros l Hx; [contradiction|].
  destruct l as [|y l]; [contradiction|]. cbn [firstn In] in *.
  destruct Hx as [->|Hx]; [left; reflexivity | right; exact (IH _ Hx)].
Qed.

Lemma ReadFlag_eqb_eq a b : ReadFlag_eqb a b = true <-> a = b.
Proof. destruct a, b; cbn; split; congruence. Qed.

Lemma unread_of_In userId ns n :
  In n (unread_of userId ns) <->
  In n ns /\ n_userId n = userId /\ n_read n = read_false.
Proof.
  unfold unread_of. rewrite filter_In, andb_true_iff, Z.eqb_eq,
    ReadFlag_eqb_eq. reflexivity.
Qed.

(** X14. [getUnreadNotifications] returns at most 50 rows while
    [getUnreadCount] counts them all: the length of the list is the
    smaller of 50 and the count.  The rows listed are unread rows of the
    user, newest first. *)
Theorem getUnreadNotifications_capped userId w :
  exists listed count,
    answer (notificationService.getUnreadNotifications userId) w
    = Some listed /\
    answer (notificationService.getUnreadCount userId) w = Some count /\
    Z.of_nat (List.length listed) = Z.min 50 count /\
    (forall n, In n listed ->
       In n (notifications w) /\
       n_userId n = userId /\ n_read n = read_false) /\
    newest_first listed.
Proof.
  eexists. eexists. split; [reflexivity|]. split; [reflexivity|].
  cbn [notifications db_restored set_db_outages].
  fold (unread_of userId (notifications w)).
  unfold notificationRepository.limit. split; [|split].
  - rewrite length_firstn, order_desc_length. change (Z.to_nat 50) with 50%nat.
    lia.
  - intros n Hn. apply firstn_In in Hn.
    apply (proj1 (order_desc_In _ _)) in Hn.
    apply unread_of_In. exact Hn.
  - apply firstn_sorted, order_desc_sorted.
Qed.

Lemma unread_of_marked_all userId ns :
  unread_of userId
    (map (fun n => if (n_userId n =? userId)
                      && ReadFlag_eqb (n_read n) read_false
                   then notificationRepository.set_read_true n else n) ns)
  = [].
Proof.
  unfold unread_of. induction ns as [|n ns IH]; [reflexivity|].
  cbn [map filter].
  destruct ((n_userId n =? userId) && ReadFlag_eqb (n_read n) read_false)
    eqn:E.
  - cbn [notificationRepository.set_read_true n_userId n_read ReadFlag_eqb].
    rewrite andb_false_r. exact IH.
  - rewrite E. exact IH.
Qed.

Lemma unread_of_marked_other userId other ns :
  other <> userId ->
  unread_of other
    (map (fun n => if (n_userId n =? userId)
                      && ReadFlag_eqb (n_read n) read_false
                   then notificationRepository.set_read_true n else n) ns)
  = unread_of other ns.
Proof.
  intros Hother. unfold unread_of.
  induction ns as [|n ns IH]; [reflexivity|].
  cbn [map filter].
  destruct (Z.eqb_spec (n_userId n) userId) as [Hu|Hu]; cbn [andb].
  - destruct (Z.eqb_spec (n_userId n) other) as [Ho|Ho]; [congruence|].
    destruct (ReadFlag_eqb (n_read n) read_false);
      cbn [notificationRepository.set_read_true n_userId andb];
      destruct (Z.eqb_spec (n_userId n) other); try congruence;
      cbn [andb]; exact IH.
  - rewrite IH. reflexivity.
Qed.

(** X15. After a [markAllAsRead] of a user that succeeds,
    [getUnreadCount] of that user is 0 and [getUnreadCount] of every
    other user is what it was. *)
Theorem markAllAsRead_clears_unread userId w w' :
  notificationService.markAllAsRead userId w = (Ok tt, w') ->
  answer (notificationService.getUnreadCount userId) w' = Some 0 /\
  forall other,
    other <> userId ->
    answer (notificationService.getUnreadCount other) w'
    = answer (notificationService.getUnreadCount other) w.
Proof.
  intros Hrun.
  assert (H : notifications w'
              = map (fun n => if (n_userId n =? userId)
                                 && ReadFlag_eqb (n_read n) read_false
                              then notificationRepository.set_read_true n
                              else n) (notifications w)).
  { refine (wp_run _
              (fun r w' =>
                 match r with
                 | Ok _ =>
                     notifications w'
                     = map (fun n => if (n_userId n =? userId)
                                        && ReadFlag_eqb (n_read n) read_false
                                     then notificationRepository.set_read_true
                                            n
                                     else n) (notifications w)
                 | Throw _ => True
                 end) _ _ _ Hrun _).
    unfold notificationService.markAllAsRead,
      notificationRepository.markAllAsRead.
    repeat wp_step; cbn [notifications set_notifications set_db_outages];
      trivial. }
  unfold answer, db_restored, notificationService.getUnreadCount,
    notificationRepository.getUnreadCount, bind, getDb.
  cbn [db_outages set_db_outages negb fst notifications].
  split.
  - fold (unread_of userId (notifications w')).
    rewrite H, unread_of_marked_all. reflexivity.
  - intros other Hother.
    fold (unread_of other (notifications w')).
    fold (unread_of other (notifications w)).
    rewrite H, (unread_of_marked_other _ _ _ Hother). reflexivity.
Qed.

(** Two unread notifications of user 1 and one of user 2. *)
Lemma markAllAsRead_clears_unread_witness :
  let ns :=
    [mkNotification 1 1 system "a" "m" None None read_false 10;
     mkNotification 2 2 system "b" "m" None None read_false 20;
     mkNotification 3 1 stock_low "c" "m" (Some 1) None read_false 30] in
  let w := set_notifications ns 4 (world_of [] [] 1) in
  let w' := snd (notificationService.markAllAsRead 1 w) in
  answer (notificationService.getUnreadCount 1) w = Some 2 /\
  answer (notificationService.getUnreadCount 1) w' = Some 0 /\
  answer (notificationService.getUnreadCount 2) w' = Some 1.
Proof.
  intros ns w w'. split; [reflexivity|].
  destruct (markAllAsRead_clears_unread 1 w w' eq_refl) as [H0 Hother].
  split; [exact H0|]. rewrite (Hother 2 ltac:(discriminate)). reflexivity.
Defined.

Lemma map_mark_missing id ns :
  (forall n, In n ns -> n_id n <> id) ->
  map (fun n => if n_id n =? id then notificationRepository.set_read_true n
                else n) ns = ns.
Proof.
  induction ns as [|n ns IH]; intros H; [reflexivity|].
  cbn [map]. destruct (Z.eqb_spec (n_id n) id) as [E|_].
  - exfalso. exact (H n (or_introl eq_refl) E).
  - rewrite IH; [reflexivity|]. intros m Hm. apply H. right. exact Hm.
Qed.

Lemma filter_id_missing id ns :
  (forall n, In n ns -> n_id n <> id) ->
  filter (fun n => n_id n =? id) ns = [].
Proof.
  induction ns as [|n ns IH]; intros H; [reflexivity|].
  cbn [filter]. destruct (Z.eqb_spec (n_id n) id) as [E|_].
  - exfalso. exact (H n (or_introl eq_refl) E).
  - apply IH. intros m Hm. apply H. right. exact Hm.
Qed.

Lemma delete_missing id w :
  db_up w ->
  (forall n, In n (notifications w) -> n_id n <> id) ->
  notificationService.deleteNotification id w
  = (Throw (mkError ("Notification with ID " ++ showZ id ++ " not found")),
     set_db_outages (tl (db_outages w)) w).
Proof.
  intros Hup Hmissing.
  unfold notificationService.deleteNotification,
    notificationRepository.delete, bind.
  rewrite (getDb_up w Hup). cbn [negb notifications set_db_outages].
  rewrite (filter_id_missing _ _ Hmissing). reflexivity.
Qed.

(** X16. For an identifier that no notification has, [markAsRead] is
    accepted and changes nothing, while [deleteNotification] throws
    "Notification with ID n not found"; neither changes the table. *)
Theorem notification_missing_id id w :
  db_up w ->
  (forall n, In n (notifications w) -> n_id n <> id) ->
  (exists w1,
     notificationService.markAsRead id w = (Ok tt, w1) /\
     notifications w1 = notifications w) /\
  (exists w2,
     notificationService.deleteNotification id w
     = (Throw (mkError ("Notification with ID " ++ showZ id
                        ++ " not found")), w2) /\
     notifications w2 = notifications w).
Proof.
  intros Hup Hmissing. split.
  - eexists. split.
    + unfold notificationService.markAsRead,
        notificationRepository.markAsRead, bind.
      rewrite (getDb_up w Hup). cbn [negb]. reflexivity.
    + cbn [notifications set_notifications set_db_outages].
      apply map_mark_missing, Hmissing.
  - eexists. split; [apply delete_missing; assumption | reflexivity].
Qed.

Lemma notification_missing_id_witness :
  let ns := [mkNotification 1 1 system "a" "m" None None read_false 10] in
  let w := set_notifications ns 2 (world_of [] [] 1) in
  (exists w1,
     notificationService.markAsRead 9 w = (Ok tt, w1) /\
     notifications w1 = ns) /\
  (exists w2,
     notificationService.deleteNotification 9 w
     = (Throw (mkError "Notification with ID 9 not found"), w2) /\
     notifications w2 = ns).
Proof.
  intros ns w.
  apply (notification_missing_id 9 w); [reflexivity|].
  intros n [<-|[]]. discriminate.
Defined.

(** X17. A [deleteNotification] that succeeds removes the rows of that
    identifier and no other row; a second [deleteNotification] of the
    same identifier throws "not found". *)
Theorem deleteNotification_removes id w w' :
  notificationService.deleteNotification id w = (Ok true, w') ->
  (exists n, In n (notifications w) /\ n_id n = id) /\
  (forall n, In n (notifications w') <->
             In n (notifications w) /\ n_id n <> id) /\
  (db_up w' ->
   fst (notificationService.deleteNotification id w')
   = Throw (mkError ("Notification with ID " ++ showZ id ++ " not found"))).
Proof.
  intros Hrun.
  assert (H : (exists n, In n (notifications w) /\ n_id n = id) /\
              notifications w'
              = filter (fun n => negb (n_id n =? id)) (notifications w)).
  { refine (wp_run _
              (fun r w' =>
                 match r with
                 | Ok _ =>
                     (exists n, In n (notifications w) /\ n_id n = id) /\
                     notifications w'
                     = filter (fun n => negb (n_id n =? id)) (notifications w)
                 | Throw _ => True
                 end) _ _ _ Hrun _).
    unfold notificationService.deleteNotification,
      notificationRepository.delete.
    wp_step. wp_step; [|wp_step; exact I].
    wp_step. wp_step. cbn [notifications set_db_outages].
    destruct (filter (fun n => n_id n =? id) (notifications w))
      as [|found rest] eqn:E; cbn [firstn]; [wp_step; exact I|].
    repeat wp_step. cbn [notifications set_notifications set_db_outages].
    split; [|reflexivity].
    exists found.
    assert (Hin : In found (filter (fun n => n_id n =? id) (notifications w)))
      by (rewrite E; left; reflexivity).
    apply filter_In in Hin. rewrite Z.eqb_eq in Hin. exact Hin. }
  destruct H as [Hfound Htable]. split; [exact Hfound|].
  assert (Hiff : forall n, In n (notifications w') <->
                           In n (notifications w) /\ n_id n <> id).
  { intros n. rewrite Htable, filter_In, negb_true_iff, Z.eqb_neq.
    reflexivity. }
  split; [exact Hiff|].
  intros Hup. rewrite (delete_missing id w' Hup); [reflexivity|].
  intros n Hn. apply Hiff in Hn. tauto.
Qed.

(** Two notifications; the second is deleted. *)
Lemma deleteNotification_removes_witness :
  let n1 := mkNotification 1 1 system "a" "m" None None read_false 10 in
  let n2 := mkNotification 2 1 system "b" "m" None None read_true 20 in
  let w := set_notifications [n1; n2] 3 (world_of [] [] 1) in
  let w' := snd (notificationService.deleteNotification 2 w) in
  notifications w' = [n1] /\
  fst (notificationService.deleteNotification 2 w')
  = Throw (mkError "Notification with ID 2 not found").
Proof.
  intros n1 n2 w w'. split; [reflexivity|].
  exact (proj2 (proj2 (deleteNotification_removes 2 w w' eq_refl)) eq_refl).
Defined.




(** X19. [update] of the product repository refuses a SKU that another
    row has: with the database at work, a request that changes the SKU
    of a product to one that is stored throws "Product with SKU ...
    already exists" and writes nothing. *)
Theorem product_update_sku_conflict id data w existing other s :
  db_outages w = [] ->
  product_of id w = Some existing ->
  u_sku data = Some s ->
  s <> EmptyString -> s <> p_sku existing ->
  productRepository.select_by_sku s (products w) = Some other ->
  productRepository.update id data w
  = (Throw (mkError ("Product with SKU " ++ dquote ++ s ++ dquote
                     ++ " already exists")), w).
Proof.
  intros Hdb Hp Hsku Hempty Hdiff Hother.
  unfold productRepository.update, bind.
  rewrite (getDb_calm w Hdb). cbn [negb].
  rewrite (product_findById_calm _ w Hdb), Hp.
  unfold productRepository.sku_changes. rewrite Hsku.
  apply String.eqb_neq in Hempty. apply String.eqb_neq in Hdiff.
  rewrite Hempty, Hdiff. cbn [negb andb].
  unfold productRepository.findBySku, bind.
  rewrite (getDb_calm w Hdb). cbn [negb]. rewrite Hother. reflexivity.
Qed.

Lemma product_update_sku_conflict_witness :
  let other := mkProduct 2 "Gadget" "G-2" None 1 5 "1.00" 0 0 0 in
  let w := world_of [widget 1 10 20; other] [] 1 in
  productRepository.update 1
    (mkPartialInsertProduct None (Some "G-2") None None None None None) w
  = (Throw (mkError ("Product with SKU " ++ dquote ++ "G-2" ++ dquote
                     ++ " already exists")), w).
Proof.
  intros other w.
  apply (product_update_sku_conflict 1 _ w (widget 1 10 20) other "G-2");
    try reflexivity; discriminate.
Defined.

(* ------------------------------------------------------------------ *)
(** ** The registry of connected users *)

Lemma map_get_set_same s v m :
  websocketService.map_get s (websocketService.map_set s v m) = Some v.
Proof.
  unfold websocketService.map_get.
  induction m as [|kv m IH]; cbn [websocketService.map_set find fst].
  - rewrite String.eqb_refl. reflexivity.
  - destruct (String.eqb (fst kv) s) eqn:E; cbn [find fst].
    + rewrite String.eqb_refl. reflexivity.
    + rewrite E. exact IH.
Qed.

Lemma map_get_set_other s s' v m :
  s <> s' ->
  websocketService.map_get s' (websocketService.map_set s v m)
  = websocketService.map_get s' m.
Proof.
  intros Hne. unfold websocketService.map_get.
  induction m as [|kv m IH]; cbn [websocketService.map_set find fst].
  - apply String.eqb_neq in Hne. rewrite Hne. reflexivity.
  - destruct (String.eqb_spec (fst kv) s) as [E|E]; cbn [find fst].
    + rewrite E. apply String.eqb_neq in Hne. rewrite Hne. reflexivity.
    + destruct (String.eqb (fst kv) s'); [reflexivity | exact IH].
Qed.

Lemma map_set_In s v m : In (s, v) (websocketService.map_set s v m).
Proof.
  induction m as [|kv m IH]; cbn [websocketService.map_set].
  - left. reflexivity.
  - destruct (String.eqb (fst kv) s); [left; reflexivity | right; exact IH].
Qed.

Lemma map_set_fresh s v m :
  websocketService.map_get s m = None ->
  websocketService.map_set s v m = (m ++ [(s, v)])%list /\
  websocketService.map_delete s m = m.
Proof.
  unfold websocketService.map_get, websocketService.map_delete.
  induction m as [|kv m IH]; intros Hnone; [split; reflexivity|].
  cbn [find websocketService.map_set filter app] in *.
  destruct (String.eqb (fst kv) s); [discriminate|].
  destruct (IH Hnone) as [-> ->]. split; reflexivity.
Qed.

Lemma isUserConnected_In userId s v m :
  In (s, v) m -> websocketService.cu_userId v = userId ->
  websocketService.isUserConnected userId m = true.
Proof.
  intros Hin Hu. unfold websocketService.isUserConnected.
  apply existsb_exists. exists v. split.
  - change v with (snd (s, v)). apply in_map. exact Hin.
  - apply Z.eqb_eq. exact Hu.
Qed.

(** X20. A [user:join] on a socket that is not in the registry makes the
    user connected and adds one to [getConnectedUserCount]; the
    [disconnect] of that socket gives back the registry as it was. *)
Theorem registry_join_then_disconnect socketId userId role m :
  websocketService.map_get socketId m = None ->
  let joined := websocketService.on_user_join socketId userId role m in
  websocketService.isUserConnected userId joined = true /\
  websocketService.getConnectedUserCount joined
  = websocketService.getConnectedUserCount m + 1 /\
  websocketService.on_disconnect socketId joined = m.
Proof.
  intros Hfresh joined. unfold joined, websocketService.on_user_join.
  set (v := websocketService.mkConnectedUser userId socketId role).
  destruct (map_set_fresh socketId v m Hfresh) as [Hset Hdelete].
  split; [|split].
  - eapply isUserConnected_In; [apply map_set_In | reflexivity].
  - unfold websocketService.getConnectedUserCount.
    rewrite Hset, length_app. cbn [List.length]. lia.
  - unfold websocketService.on_disconnect. rewrite map_get_set_same, Hset.
    unfold websocketService.map_delete in *. rewrite filter_app.
    cbn [filter fst]. rewrite String.eqb_refl. cbn [negb].
    rewrite app_nil_r. exact Hdelete.
Qed.

Lemma registry_join_then_disconnect_witness :
  let m := [("s1", websocketService.mkConnectedUser 7 "s1" "admin")] in
  let joined := websocketService.on_user_join "s2" 8 "viewer" m in
  websocketService.isUserConnected 8 joined = true /\
  websocketService.getConnectedUserCount joined = 2 /\
  websocketService.on_disconnect "s2" joined = m.
Proof.
  intros m.
  exact (registry_join_then_disconnect "s2" 8 "viewer" m eq_refl).
Defined.

(** X21. The registry is keyed by socket, not by user: a user who joins
    on two sockets is counted twice by [getConnectedUserCount], and stays
    connected when one of the two sockets disconnects. *)
Theorem registry_counts_sockets s1 s2 userId role1 role2 m :
  s1 <> s2 ->
  websocketService.map_get s1 m = None ->
  websocketService.map_get s2 m = None ->
  let joined :=
    websocketService.on_user_join s2 userId role2
      (websocketService.on_user_join s1 userId role1 m) in
  websocketService.getConnectedUserCount joined
  = websocketService.getConnectedUserCount m + 2 /\
  websocketService.isUserConnected userId
    (websocketService.on_disconnect s1 joined) = true.
Proof.
  intros Hne H1 H2 joined. unfold joined, websocketService.on_user_join.
  set (v1 := websocketService.mkConnectedUser userId s1 role1).
  set (v2 := websocketService.mkConnectedUser userId s2 role2).
  assert (H2' : websocketService.map_get s2 (websocketService.map_set s1 v1 m)
                = None)
    by (rewrite map_get_set_other; assumption).
  split.
  - unfold websocketService.getConnectedUserCount.
    rewrite (proj1 (map_set_fresh _ v2 _ H2')),
      (proj1 (map_set_fresh _ v1 _ H1)), !length_app.
    cbn [List.length]. lia.
  - unfold websocketService.on_disconnect.
    rewrite map_get_set_other by congruence.
    rewrite map_get_set_same.
    apply (isUserConnected_In userId s2 v2); [|reflexivity].
    unfold websocketService.map_delete. apply filter_In. split.
    + apply map_set_In.
    + cbn [fst]. apply negb_true_iff, String.eqb_neq. congruence.
Qed.

Lemma registry_counts_sockets_witness :
  let joined :=
    websocketService.on_user_join "s2" 7 "admin"
      (websocketService.on_user_join "s1" 7 "admin" []) in
  websocketService.getConnectedUserCount joined = 2 /\
  websocketService.isUserConnected 7
    (websocketService.on_disconnect "s1" joined) = true.
Proof.
  exact (registry_counts_sockets "s1" "s2" 7 "admin" "admin" []
           ltac:(discriminate) eq_refl eq_refl).
Defined.

(* ------------------------------------------------------------------ *)
(** ** More on the convenience wrapper *)

Lemma movement_create_calm data w p created :
  db_outages w = [] ->
  product_of (i_productId data) w = Some p ->
  stockMovementRepository.select_by_id (i_productId data)
    (stock_movements (insert_row data w)) = Some created ->
  stockMovementRepository.create data w = (Ok created, insert_row data w).
Proof.
  intros Hdb Hp Hcreated.
  unfold stockMovementRepository.create, bind.
  rewrite (getDb_calm w Hdb). cbn [negb].
  unfold stockMovementRepository.db_insert.
  rewrite (product_of_exists _ _ _ Hp).
  fold (insert_row data w).
  rewrite (movement_findById_calm _ (insert_row data w) Hdb), Hcreated.
  reflexivity.
Qed.

(** X22. [recordMovementAndAlert] evaluates the alert on the quantity the
    product had before the movement, since it never updates it.  When
    nothing fails and the read-back of [create] finds a row, it emits the
    movement and then the alert of the tier of the unchanged product,
    and the product is as it was. *)
Theorem recordMovementAndAlert_alerts_on_old_quantity
  productId t q reason w p created :
  calm w -> io w = true ->
  product_of productId w = Some p ->
  stockMovementRepository.select_by_id productId
    (stock_movements
       (insert_row (mkInsertStockMovement productId t q reason) w))
  = Some created ->
  let w' :=
    snd (stockAlertService.recordMovementAndAlert productId t q reason w) in
  emitted w'
  = (emitted w
     ++ [("stock:movement",
          MovementPayload productId (p_name p) t q reason (clock w))]
     ++ events_of_tier
          (Spec.evaluate (p_quantity p) (p_minStockLevel p)) p (clock w))%list
  /\ product_of productId w' = Some p.
Proof.
  intros [Hdb Hemit] Hio Hp Hcreated.
  unfold stockAlertService.recordMovementAndAlert.
  match goal with
  | |- context [try_catch ?body (fun e => console_log (@?msg e))] =>
      destruct (try_catch_log_world body msg w) as [lines ->];
      remember (body w) as run eqn:Hrun
  end.
  cbv zeta. unfold product_of. cbn [emitted products set_console].
  set (row := mkInsertStockMovement productId t q reason) in *.
  unfold bind at 1 in Hrun.
  rewrite (movement_create_calm row w p created Hdb Hp Hcreated) in Hrun.
  unfold bind at 1 in Hrun.
  rewrite (product_findById_calm _ (insert_row row w) Hdb) in Hrun.
  change (product_of productId (insert_row row w))
    with (product_of productId w) in Hrun.
  rewrite Hp in Hrun. unfold bind at 1 in Hrun.
  unfold websocketService.broadcastStockMovement, bind,
    websocketService.io_ready, now, websocketService.io_emit in Hrun.
  cbn [io insert_row set_stock_movements] in Hrun. rewrite Hio in Hrun.
  cbn [negb fst snd] in Hrun.
  cbn [emit_faults insert_row set_stock_movements] in Hrun.
  rewrite Hemit in Hrun. cbn [negb fst snd console_log] in Hrun.
  subst run.
  match goal with
  | |- context [stockAlertService.checkAndAlertStockLevel productId ?W] =>
      destruct (checkAndAlertStockLevel_calm productId W p)
        as (_ & _ & _ & Hproducts & _ & Hevents);
      [split; [exact Hdb | exact Hemit] | exact Hio | exact Hp |]
  end.
  cbv zeta in Hproducts, Hevents. rewrite Hevents, Hproducts.
  cbn [emitted products clock set_console set_emitted insert_row
         set_stock_movements].
  split; [rewrite <- app_assoc; reflexivity | exact Hp].
Qed.

(** A sale of the whole stock of 10 units, against a threshold of 20:
    the alert is the warning of a product that has 10 units, not the
    critical alert of a product that has none, and 10 units are still on
    hand. *)
Lemma recordMovementAndAlert_alerts_on_old_quantity_witness :
  let p := widget 1 10 20 in
  let w := world_of [p] [] 1 in
  let w' := snd (stockAlertService.recordMovementAndAlert 1 sale 10 None w) in
  emitted w'
  = [("stock:movement", MovementPayload 1 "Widget" sale 10 None 100);
     low_event p 100] /\
  product_of 1 w' = Some p.
Proof.
  intros p w.
  exact (recordMovementAndAlert_alerts_on_old_quantity 1 sale 10 None w p
           (mkStockMovement 1 1 sale 10 None 100)
           (conj eq_refl eq_refl) eq_refl eq_refl eq_refl).
Defined.
